(** * Profile key management: the transfer-authority state machine

    A shallow embedding of [src/components/ProfileManager.tsx] and the
    properties of its specification.  The second presentation variant of
    the component has the same transfer handlers and effects; its
    [fetchProfiles] has the same guard and first read, then skips the
    account count and also reads the profile names.

    Conventions of the embedding.
    - A JavaScript string is a [string]; its characters are code units
      below 256.
    - A public key is identified with its base58 text: [PublicKey.equals]
      and [toBase58() === ...] both become equality of strings.
    - Every handler is run to completion before the next event is taken:
      an [await] is an external call whose outcome is supplied by the
      caller of the handler, and the calls made are returned as a trace.
    - [setTransferState (prev => ...)] is applied to the state the handler
      was started in.
    - Logging and [prevWalletRef] (written, never read) are left out. *)

From Stdlib Require Import String Ascii ZArith List Bool Lia DecimalString.
Import ListNotations.

Local Open Scope string_scope.
Local Open Scope list_scope.
Local Open Scope Z_scope.

(** ** JavaScript string primitives used by the component *)

Module JS.

(** White space and line terminators removed by [String.prototype.trim],
    restricted to code units below 256: TAB, LF, VT, FF, CR, SP, NBSP. *)
Definition isWhiteSpace (c : ascii) : bool :=
  let n := nat_of_ascii c in
  ((9 <=? n)%nat && (n <=? 13)%nat) || (n =? 32)%nat || (n =? 160)%nat.

Fixpoint trimStart (s : string) : string :=
  match s with
  | EmptyString => EmptyString
  | String c s' => if isWhiteSpace c then trimStart s' else s
  end.

Fixpoint trimEnd (s : string) : string :=
  match s with
  | EmptyString => EmptyString
  | String c s' =>
      match trimEnd s' with
      | EmptyString => if isWhiteSpace c then EmptyString else String c EmptyString
      | t => String c t
      end
  end.

Definition trim (s : string) : string := trimEnd (trimStart s).

(** [s.slice(0, n)] and [s.slice(-n)]. *)
Definition sliceFirst (n : nat) (s : string) : string := substring 0 n s.
Definition sliceLast (n : nat) (s : string) : string :=
  substring (String.length s - n) n s.

(** Truthiness of [string | null] and [number | null]. *)
Definition truthyString (o : option string) : bool :=
  match o with
  | None => false
  | Some s => negb (s =? "")%string
  end.

Definition truthyNumber (o : option Z) : bool :=
  match o with
  | None => false
  | Some n => negb (n =? 0)
  end.

(** [x || null] on an optional string. *)
Definition orNull (o : option string) : option string :=
  if truthyString o then o else None.

(** Template-literal rendering of an array length. *)
Definition showNat (n : nat) : string := NilZero.string_of_uint (Nat.to_uint n).

End JS.

(** ** Results of external calls and the trace of calls made *)

Inductive Outcome (A : Type) : Type :=
| Ok (a : A)
| Throw (msg : string).
Arguments Ok {A} a.
Arguments Throw {A} msg.

(** ** Accounts, instructions and transactions as the component sees them *)

Record ProfilePermissions := {
  auth : bool;
  addKeys : bool;
  removeKeys : bool;
}.

(** One row of [profile.profileKeys]; [permissions] stands for
    [ProfilePermissions.fromPermissions(k.permissions)]. *)
Record ProfileKey := {
  key : string;
  permissions : ProfilePermissions;
  expireTime : Z;
}.

(** [profile.key], [profile.data.createdAt], [profile.data.keyThreshold],
    [profile.profileKeys]. *)
Record PlayerProfile := {
  profile_key : string;
  createdAt : Z;
  keyThreshold : Z;
  profileKeys : list ProfileKey;
}.

Record AccountMeta := {
  pubkey : string;
  isSigner : bool;
  isWritable : bool;
}.

Record Instruction := {
  keys : list AccountMeta;
  data : string;
}.

(** [signatures] lists the addresses whose signature the transaction
    carries.  The base64 text kept in [partiallySignedTx] is identified
    with the transaction it encodes ([Transaction.from] undoes
    [serialize]); [serialize] is taken to be total. *)
Record Transaction := {
  instructions : list Instruction;
  recentBlockhash : option string;
  feePayer : option string;
  signatures : list string;
}.

(** What a successful [wallet.signTransaction (tx)] hands back when the
    wallet's address is [w]. *)
Definition addSignature (w : string) (tx : Transaction) : Transaction :=
  {| instructions := instructions tx;
     recentBlockhash := recentBlockhash tx;
     feePayer := feePayer tx;
     signatures := signatures tx ++ [w] |}.

(** The wallet-adapter state read by the component: [wallet.publicKey]
    (as base58 text), whether [wallet.signTransaction] is defined, and
    [wallet.connected]. *)
Record Wallet := {
  publicKey : option string;
  signTransaction : bool;
  connected : bool;
}.

Inductive Call : Type :=
| CallRemoveKeys (profile : string) (first last : Z)
| CallAdjustAuth (profile : string) (current newKey scope : string)
                 (first last : Z) (threshold : Z)
| CallGetLatestBlockhash
| CallSignTransaction (w : string) (tx : Transaction)
| CallSendTransaction (w : string) (tx : Transaction)
| CallSendRawTransaction (tx : Transaction)
| CallConfirmTransaction (signature : string)
| CallGetAccountInfo (program : string)
| CallGetProgramAccounts (program : string)
| CallReadAllFromRPC (program : string) (memcmp : string)
| CallDisconnect
| CallSetWalletModalVisible
| CallAlert (msg : string).

(** A computation that makes external calls and may throw. *)
Definition Act (A : Type) : Type := (list Call * Outcome A)%type.

Definition ret {A} (a : A) : Act A := ([], Ok a).

Definition throw {A} (msg : string) : Act A := ([], Throw msg).

Definition bind {A B} (m : Act A) (f : A -> Act B) : Act B :=
  match m with
  | (t, Ok a) => let '(t', r) := f a in (t ++ t', r)
  | (t, Throw e) => (t, Throw e)
  end.

(** [await] of an external call: the call is logged, its outcome given. *)
Definition await {A} (c : Call) (o : Outcome A) : Act A := ([c], o).

Notation "x <- m ;; k" := (bind m (fun x => k))
  (at level 61, m at next level, right associativity).

(** ** The transfer session *)

Inductive TransferStep : Type :=
| idle
| enter_destination
| sign_current
| connect_destination
| sign_destination
| complete
| expired.

Definition TransferStep_eqb (a b : TransferStep) : bool :=
  match a, b with
  | idle, idle
  | enter_destination, enter_destination
  | sign_current, sign_current
  | connect_destination, connect_destination
  | sign_destination, sign_destination
  | complete, complete
  | expired, expired => true
  | _, _ => false
  end.

Record TransferState := {
  step : TransferStep;
  destinationPubkey : string;
  originalAuthPubkey : string;
  partiallySignedTx : option Transaction;
  profileKey : string;
  profileCreatedAt : Z;
  profileKeyThreshold : Z;
  signedAt : option Z;
  error : option string;
}.

Definition initialTransferState : TransferState :=
  {| step := idle;
     destinationPubkey := "";
     originalAuthPubkey := "";
     partiallySignedTx := None;
     profileKey := "";
     profileCreatedAt := 0;
     profileKeyThreshold := 1;
     signedAt := None;
     error := None |}.

Definition BLOCKHASH_VALIDITY_SECONDS : Z := 42.

(** Field updates, the pieces of [{ ...prev, field: value }]. *)
Definition with_step (v : TransferStep) (s : TransferState) : TransferState :=
  {| step := v;
     destinationPubkey := destinationPubkey s;
     originalAuthPubkey := originalAuthPubkey s;
     partiallySignedTx := partiallySignedTx s;
     profileKey := profileKey s;
     profileCreatedAt := profileCreatedAt s;
     profileKeyThreshold := profileKeyThreshold s;
     signedAt := signedAt s;
     error := error s |}.

Definition with_destinationPubkey (v : string) (s : TransferState) : TransferState :=
  {| step := step s;
     destinationPubkey := v;
     originalAuthPubkey := originalAuthPubkey s;
     partiallySignedTx := partiallySignedTx s;
     profileKey := profileKey s;
     profileCreatedAt := profileCreatedAt s;
     profileKeyThreshold := profileKeyThreshold s;
     signedAt := signedAt s;
     error := error s |}.

Definition with_partiallySignedTx (v : option Transaction) (s : TransferState) : TransferState :=
  {| step := step s;
     destinationPubkey := destinationPubkey s;
     originalAuthPubkey := originalAuthPubkey s;
     partiallySignedTx := v;
     profileKey := profileKey s;
     profileCreatedAt := profileCreatedAt s;
     profileKeyThreshold := profileKeyThreshold s;
     signedAt := signedAt s;
     error := error s |}.

Definition with_signedAt (v : option Z) (s : TransferState) : TransferState :=
  {| step := step s;
     destinationPubkey := destinationPubkey s;
     originalAuthPubkey := originalAuthPubkey s;
     partiallySignedTx := partiallySignedTx s;
     profileKey := profileKey s;
     profileCreatedAt := profileCreatedAt s;
     profileKeyThreshold := profileKeyThreshold s;
     signedAt := v;
     error := error s |}.

Definition with_error (v : option string) (s : TransferState) : TransferState :=
  {| step := step s;
     destinationPubkey := destinationPubkey s;
     originalAuthPubkey := originalAuthPubkey s;
     partiallySignedTx := partiallySignedTx s;
     profileKey := profileKey s;
     profileCreatedAt := profileCreatedAt s;
     profileKeyThreshold := profileKeyThreshold s;
     signedAt := signedAt s;
     error := v |}.

(** ** The component's state ([useState] cells) *)

Record Component := {
  profiles : list PlayerProfile;
  loading : bool;
  processing : bool;
  selectedProfile : option PlayerProfile;
  modalOpen : bool;
  programId : string;
  debugInfo : string;
  transferState : TransferState;
  timeRemaining : option Z;
}.

Definition setProfiles (v : list PlayerProfile) (c : Component) : Component :=
  {| profiles := v; loading := loading c; processing := processing c;
     selectedProfile := selectedProfile c; modalOpen := modalOpen c;
     programId := programId c; debugInfo := debugInfo c;
     transferState := transferState c; timeRemaining := timeRemaining c |}.

Definition setLoading (v : bool) (c : Component) : Component :=
  {| profiles := profiles c; loading := v; processing := processing c;
     selectedProfile := selectedProfile c; modalOpen := modalOpen c;
     programId := programId c; debugInfo := debugInfo c;
     transferState := transferState c; timeRemaining := timeRemaining c |}.

Definition setProcessing (v : bool) (c : Component) : Component :=
  {| profiles := profiles c; loading := loading c; processing := v;
     selectedProfile := selectedProfile c; modalOpen := modalOpen c;
     programId := programId c; debugInfo := debugInfo c;
     transferState := transferState c; timeRemaining := timeRemaining c |}.

Definition setSelectedProfile (v : option PlayerProfile) (c : Component) : Component :=
  {| profiles := profiles c; loading := loading c; processing := processing c;
     selectedProfile := v; modalOpen := modalOpen c;
     programId := programId c; debugInfo := debugInfo c;
     transferState := transferState c; timeRemaining := timeRemaining c |}.

Definition setModalOpen (v : bool) (c : Component) : Component :=
  {| profiles := profiles c; loading := loading c; processing := processing c;
     selectedProfile := selectedProfile c; modalOpen := v;
     programId := programId c; debugInfo := debugInfo c;
     transferState := transferState c; timeRemaining := timeRemaining c |}.

Definition setProgramId (v : string) (c : Component) : Component :=
  {| profiles := profiles c; loading := loading c; processing := processing c;
     selectedProfile := selectedProfile c; modalOpen := modalOpen c;
     programId := v; debugInfo := debugInfo c;
     transferState := transferState c; timeRemaining := timeRemaining c |}.

Definition setDebugInfo (v : string) (c : Component) : Component :=
  {| profiles := profiles c; loading := loading c; processing := processing c;
     selectedProfile := selectedProfile c; modalOpen := modalOpen c;
     programId := programId c; debugInfo := v;
     transferState := transferState c; timeRemaining := timeRemaining c |}.

(** [setTransferState (prev => f prev)]. *)
Definition setTransferState (f : TransferState -> TransferState) (c : Component) : Component :=
  {| profiles := profiles c; loading := loading c; processing := processing c;
     selectedProfile := selectedProfile c; modalOpen := modalOpen c;
     programId := programId c; debugInfo := debugInfo c;
     transferState := f (transferState c); timeRemaining := timeRemaining c |}.

Definition setTimeRemaining (v : option Z) (c : Component) : Component :=
  {| profiles := profiles c; loading := loading c; processing := processing c;
     selectedProfile := selectedProfile c; modalOpen := modalOpen c;
     programId := programId c; debugInfo := debugInfo c;
     transferState := transferState c; timeRemaining := v |}.

(** The component as first mounted, with the default program id. *)
Definition initialComponent (pid : string) : Component :=
  {| profiles := []; loading := false; processing := false;
     selectedProfile := None; modalOpen := false;
     programId := pid; debugInfo := "";
     transferState := initialTransferState; timeRemaining := None |}.

(** [isTransferInProgress], derived from [step] on every render. *)
Definition isTransferInProgress (s : TransferState) : bool :=
  TransferStep_eqb (step s) connect_destination
  || TransferStep_eqb (step s) sign_destination
  || TransferStep_eqb (step s) expired
  || TransferStep_eqb (step s) complete.

(** ** The countdown effect *)

(** The guard at the head of the effect: no timer without [signedAt], nor
    in [complete] or [expired]. *)
Definition timerIdle (s : TransferState) : bool :=
  negb (JS.truthyNumber (signedAt s))
  || TransferStep_eqb (step s) complete
  || TransferStep_eqb (step s) expired.

Definition expiredMessage : string :=
  "Transaction expired. The blockhash is no longer valid. Please restart the transfer.".

(** [updateTimer], called at once and then on every interval tick, with
    [Date.now ()] = [now] and the [signedAt] of the running effect. *)
Definition updateTimer (now at_ : Z) (c : Component) : Component :=
  let elapsed := (now - at_) / 1000 in
  let remaining := BLOCKHASH_VALIDITY_SECONDS - elapsed in
  if remaining <=? 0
  then setTransferState (fun prev => with_error (Some expiredMessage) (with_step expired prev))
         (setTimeRemaining (Some 0) c)
  else setTimeRemaining (Some remaining) c.

Definition timerEffect (now : Z) (c : Component) : Component :=
  if timerIdle (transferState c) then setTimeRemaining None c
  else match signedAt (transferState c) with
       | Some at_ => updateTimer now at_ c
       | None => setTimeRemaining None c
       end.

(** ** The wallet-watching effect *)

Definition wrongWalletMessage (dest : string) : string :=
  "Wrong wallet connected. Expected: " ++ JS.sliceFirst 4 dest ++ "..." ++ JS.sliceLast 4 dest.

Definition walletEffect (w : Wallet) (c : Component) : Component :=
  let s := transferState c in
  match JS.orNull (publicKey w) with
  | Some currentWallet =>
      if TransferStep_eqb (step s) connect_destination then
        if (currentWallet =? destinationPubkey s)%string then
          setTransferState (fun prev => with_error None (with_step sign_destination prev)) c
        else if negb (currentWallet =? originalAuthPubkey s)%string then
          setTransferState
            (fun prev => with_error (Some (wrongWalletMessage (destinationPubkey s))) prev) c
        else c
      else c
  | None => c
  end.

(** ** Handlers *)

(** [Array.prototype.findIndex]; [None] is the source's [-1]. *)
Fixpoint findIndex {A} (f : A -> bool) (l : list A) : option nat :=
  match l with
  | [] => None
  | x :: l' => if f x then Some 0%nat else option_map S (findIndex f l')
  end.

(** [const k = ix.keys.find (...); if (k) k.isSigner = true]: the first
    account with the given address becomes a required signer. *)
Fixpoint markSigner (d : string) (ks : list AccountMeta) : list AccountMeta :=
  match ks with
  | [] => []
  | k :: ks' =>
      if (pubkey k =? d)%string
      then {| pubkey := pubkey k; isSigner := true; isWritable := isWritable k |} :: ks'
      else k :: markSigner d ks'
  end.

Definition markDestination (d : string) (ix : Instruction) : Instruction :=
  {| keys := markSigner d (keys ix); data := data ix |}.

(** [new Transaction ().add (...instructions)], which refuses an empty
    argument list. *)
Definition newTransaction (ixs : list Instruction) : Act Transaction :=
  match ixs with
  | [] => throw "No instructions"
  | _ => ret {| instructions := ixs; recentBlockhash := None;
                feePayer := None; signatures := [] |}
  end.

Definition prepare (blockhash payer : string) (tx : Transaction) : Transaction :=
  {| instructions := instructions tx;
     recentBlockhash := Some blockhash;
     feePayer := Some payer;
     signatures := signatures tx |}.

Inductive ReadResult : Type :=
| ReadOk (p : PlayerProfile)
| ReadError.

Definition okProfiles (rs : list ReadResult) : list PlayerProfile :=
  flat_map (fun r => match r with ReadOk p => [p] | ReadError => [] end) rs.

(** Outcomes of the external calls of each handler, in the order the
    handler awaits them. *)
Record FetchOutcomes := {
  accountInfo : Outcome bool;
  programAccounts : Outcome nat;
  readAll : Outcome (list ReadResult);
}.

Record DeleteOutcomes := {
  removeKeysIxs : Outcome (list Instruction);
  deleteBlockhash : Outcome string;
  sendTransaction : Outcome string;
  deleteConfirmed : Outcome unit;
  refetch : FetchOutcomes;
}.

Record SignCurrentOutcomes := {
  adjustAuthIxs : Outcome (list Instruction);
  latestBlockhash : Outcome string;
  currentSigned : Outcome unit;
  dateNow : Z;
}.

Record SignDestinationOutcomes := {
  destinationSigned : Outcome unit;
  sendRawTransaction : Outcome string;
  confirmBlockhash : Outcome string;
  confirmTransaction : Outcome unit;
}.

Section Handlers.

(** [new PublicKey (s)] of the web3 library: [Some msg] when the
    constructor throws [msg], [None] when [s] is accepted. *)
Variable PublicKey_throws : string -> option string.

Definition newPublicKey (s : string) : Act string :=
  match PublicKey_throws s with
  | Some msg => throw msg
  | None => ret s
  end.

(** The memoised [program]: [null] when the program id does not parse. *)
Definition programBuilt (c : Component) : bool :=
  match PublicKey_throws (programId c) with
  | Some _ => false
  | None => true
  end.

Definition fetchProfiles (w : Wallet) (o : FetchOutcomes) (c : Component)
  : Component * list Call :=
  if isTransferInProgress (transferState c) then (c, [])
  else
    match publicKey w with
    | Some me =>
        if programBuilt c then
          let c1 := setDebugInfo "" (setLoading true c) in
          let pid := programId c in
          let '(t, r) :=
            (found <- await (CallGetAccountInfo pid) (accountInfo o) ;;
             if negb found then
               ret (setProfiles []
                      (setDebugInfo
                         ("Program " ++ pid
                          ++ " does not exist on this network. Try a different program ID.")%string
                         c1))
             else
               total <- await (CallGetProgramAccounts pid) (programAccounts o) ;;
               results <- await (CallReadAllFromRPC pid me) (readAll o) ;;
               let myProfiles := okProfiles results in
               let n := JS.showNat (List.length myProfiles) in
               let msg :=
                 ("Found " ++ n ++ " profiles. Program has " ++ JS.showNat total
                  ++ " total accounts.")%string in
               let msg' :=
                 if ((List.length myProfiles =? 0)%nat && (0 <? total)%nat)%bool
                 then (msg ++ " The offset calculation might be wrong or your wallet is not an auth key on any profiles.")%string
                 else msg in
               ret (setProfiles myProfiles (setDebugInfo msg' c1))) in
          let c2 := match r with
                    | Ok c' => c'
                    | Throw e => setDebugInfo ("Error: " ++ e)%string c1
                    end in
          (setLoading false c2, t)
        else (c, [])
    | None => (c, [])
    end.

Definition handleDeleteKey (w : Wallet) (o : DeleteOutcomes)
  (profile : PlayerProfile) (keyIndex : nat) (c : Component)
  : Component * list Call :=
  match publicKey w, signTransaction w with
  | Some me, true =>
      let c1 := setProcessing true c in
      let i := Z.of_nat keyIndex in
      let '(t, r) :=
        (ixs <- await (CallRemoveKeys (profile_key profile) i (i + 1)) (removeKeysIxs o) ;;
         tx0 <- newTransaction ixs ;;
         blockhash <- await CallGetLatestBlockhash (deleteBlockhash o) ;;
         let tx := prepare blockhash me tx0 in
         sig <- await (CallSendTransaction me tx) (sendTransaction o) ;;
         _ <- await (CallConfirmTransaction sig) (deleteConfirmed o) ;;
         let '(c', t') := fetchProfiles w (refetch o) c1 in
         (t', Ok c')) in
      match r with
      | Ok c' => (setProcessing false c', t)
      | Throw _ => (setProcessing false c1, t ++ [CallAlert "Failed to delete key. See console."])
      end
  | _, _ => (c, [])
  end.

Definition openTransferModal (w : Wallet) (profile : PlayerProfile) (c : Component)
  : Component :=
  let me := match JS.orNull (publicKey w) with Some a => a | None => "" end in
  setModalOpen true
    (setTransferState
       (fun _ =>
          {| step := enter_destination;
             destinationPubkey := destinationPubkey initialTransferState;
             originalAuthPubkey := me;
             partiallySignedTx := partiallySignedTx initialTransferState;
             profileKey := profile_key profile;
             profileCreatedAt := createdAt profile;
             profileKeyThreshold := keyThreshold profile;
             signedAt := signedAt initialTransferState;
             error := error initialTransferState |})
       (setSelectedProfile (Some profile) c)).

Definition closeTransferModal (c : Component) : Component :=
  setTransferState (fun _ => initialTransferState)
    (setSelectedProfile None (setModalOpen false c)).

Definition handleDestinationSubmit (w : Wallet) (c : Component) : Component :=
  let dest := JS.trim (destinationPubkey (transferState c)) in
  match PublicKey_throws dest with
  | Some _ =>
      setTransferState (fun prev => with_error (Some "Invalid Solana address") prev) c
  | None =>
      let same := match publicKey w with
                  | Some me => (dest =? me)%string
                  | None => false
                  end in
      if same then
        setTransferState
          (fun prev => with_error (Some "Destination cannot be the same as current wallet") prev) c
      else
        setTransferState (fun prev => with_error None (with_step sign_current prev)) c
  end.

Definition handleRestartTransfer (c : Component) : Component :=
  setTransferState
    (fun prev =>
       with_error None (with_signedAt None (with_partiallySignedTx None
         (with_step sign_current prev)))) c.

(** The input's [onChange], the [Back] button and the [Continue to Sign]
    button, written inline in the render function. *)
Definition changeDestination (v : string) (c : Component) : Component :=
  setTransferState (fun prev => with_error None (with_destinationPubkey v prev)) c.

Definition backToDestination (c : Component) : Component :=
  setTransferState (fun prev => with_error None (with_step enter_destination prev)) c.

Definition continueToSign (c : Component) : Component :=
  setTransferState (fun prev => with_step sign_destination prev) c.

Definition isAuthKeyOf (me : string) (k : ProfileKey) : bool :=
  ((key k =? me)%string && auth (permissions k))%bool.

Definition handleSignWithCurrentWallet (w : Wallet) (o : SignCurrentOutcomes)
  (c : Component) : Component * list Call :=
  match publicKey w, signTransaction w, selectedProfile c with
  | Some me, true, Some profile =>
      let c1 := setProcessing true c in
      let s := transferState c in
      let '(t, r) :=
        (newAuthPubkey <- newPublicKey (destinationPubkey s) ;;
         currentKeyIndex <-
           match findIndex (isAuthKeyOf me) (profileKeys profile) with
           | Some i => ret (Z.of_nat i)
           | None => throw "Current wallet is not an auth key"
           end ;;
         ixs <- await (CallAdjustAuth (profile_key profile) me newAuthPubkey (programId c)
                         currentKeyIndex (currentKeyIndex + 1) (keyThreshold profile))
                      (adjustAuthIxs o) ;;
         tx0 <- newTransaction (map (markDestination newAuthPubkey) ixs) ;;
         blockhash <- await CallGetLatestBlockhash (latestBlockhash o) ;;
         let tx := prepare blockhash newAuthPubkey tx0 in
         _ <- await (CallSignTransaction me tx) (currentSigned o) ;;
         ret (addSignature me tx)) in
      match r with
      | Ok signedTx =>
          (setProcessing false
             (setTransferState
                (fun prev =>
                   with_error None (with_signedAt (Some (dateNow o))
                     (with_partiallySignedTx (Some signedTx)
                        (with_step connect_destination prev)))) c1), t)
      | Throw e =>
          (setProcessing false
             (setTransferState
                (fun prev => with_error (Some ("Failed to sign: " ++ e)%string) prev) c1), t)
      end
  | _, _, _ => (c, [])
  end.

Definition handleSignWithDestinationWallet (w : Wallet) (o : SignDestinationOutcomes)
  (c : Component) : Component * list Call :=
  match publicKey w, signTransaction w, partiallySignedTx (transferState c) with
  | Some me, true, Some stored =>
      if negb (me =? destinationPubkey (transferState c))%string then
        (setTransferState
           (fun prev =>
              with_error (Some "Please connect the destination wallet to continue") prev) c, [])
      else
        let c1 := setProcessing true c in
        let '(t, r) :=
          (_ <- await (CallSignTransaction me stored) (destinationSigned o) ;;
           let fullySignedTx := addSignature me stored in
           signature <- await (CallSendRawTransaction fullySignedTx) (sendRawTransaction o) ;;
           _ <- await CallGetLatestBlockhash (confirmBlockhash o) ;;
           _ <- await (CallConfirmTransaction signature) (confirmTransaction o) ;;
           ret tt) in
        match r with
        | Ok _ =>
            (setProcessing false
               (setTransferState (fun prev => with_error None (with_step complete prev)) c1), t)
        | Throw e =>
            (setProcessing false
               (setTransferState
                  (fun prev => with_error (Some ("Failed: " ++ e)%string) prev) c1), t)
        end
  | _, _, _ => (c, [])
  end.

Definition handleDisconnectAndReconnect : list Call :=
  [CallDisconnect; CallSetWalletModalVisible].

Definition handleOpenWalletModal : list Call := [CallSetWalletModalVisible].

(** ** What the render function puts on screen *)

Record System := {
  component : Component;
  wallet : Wallet;
}.

Definition stepIs (c : Component) (v : TransferStep) : bool :=
  TransferStep_eqb (step (transferState c)) v.

Definition showTransferModal (w : Wallet) (c : Component) : bool :=
  modalOpen c && (negb (stepIs c idle) || connected w).

Definition showConnectWalletMessage (w : Wallet) (c : Component) : bool :=
  negb (connected w) && negb (isTransferInProgress (transferState c)).

(** Neither of the two early [return]s of the component is taken. *)
Definition rendersMain (w : Wallet) (c : Component) : bool :=
  negb (showConnectWalletMessage w c)
  && negb (loading c && negb (isTransferInProgress (transferState c))).

Definition rendersModal (w : Wallet) (c : Component) : bool :=
  rendersMain w c && showTransferModal w c.

(** The profile table and the program settings are rendered only outside
    a transfer in progress. *)
Definition rendersTable (w : Wallet) (c : Component) : bool :=
  rendersMain w c && negb (isTransferInProgress (transferState c)).

Definition isCorrectWallet (w : Wallet) (c : Component) : bool :=
  match publicKey w with
  | Some me => (me =? destinationPubkey (transferState c))%string
  | None => false
  end.

Inductive RowButton : Type :=
| TransferAuthButton
| DeleteButton
| NoButton.

(** The [Actions] cell of one key row:
    [isAuth && isMe ? <Transfer Auth> : (!isAuth && <Delete>)]. *)
Definition rowButton (w : Wallet) (pk : ProfileKey) : RowButton :=
  let isAuth := auth (permissions pk) in
  let isMe := match publicKey w with
              | Some me => (key pk =? me)%string
              | None => false
              end in
  if isAuth && isMe then TransferAuthButton
  else if negb isAuth then DeleteButton
  else NoButton.

Definition RowButton_eqb (a b : RowButton) : bool :=
  match a, b with
  | TransferAuthButton, TransferAuthButton
  | DeleteButton, DeleteButton
  | NoButton, NoButton => true
  | _, _ => false
  end.

(** The button rendered in row [row] of the [pi]-th listed profile. *)
Definition buttonAt (w : Wallet) (c : Component) (pi row : nat) : RowButton :=
  match nth_error (profiles c) pi with
  | Some p =>
      match nth_error (profileKeys p) row with
      | Some pk => rowButton w pk
      | None => NoButton
      end
  | None => NoButton
  end.

(** ** Events: effects firing, the wallet changing, and user input *)

Inductive Event : Type :=
| TimerTick (now : Z)
| WalletObserved
| WalletChanged (w' : Wallet) (o : FetchOutcomes)
| FetchEffect (o : FetchOutcomes)
| ClickConnectWallet
| ChangeProgramId (v : string)
| ClickSearchProfiles (o : FetchOutcomes)
| ClickTransferAuth (pi row : nat)
| ClickDelete (pi row : nat) (o : DeleteOutcomes)
| ChangeDestination (v : string)
| ClickCancel
| ClickContinue
| ClickBack
| ClickSignCurrent (o : SignCurrentOutcomes)
| ClickSwitchWallet
| ClickContinueToSign
| ClickSignDestination (o : SignDestinationOutcomes)
| ClickDone
| ClickRestart.

(** Whether the control behind a user event is rendered and enabled;
    effects and wallet changes can happen at any time. *)
Definition offered (sys : System) (e : Event) : bool :=
  let c := component sys in
  let w := wallet sys in
  match e with
  | TimerTick _ | WalletObserved | WalletChanged _ _ | FetchEffect _ => true
  | ClickConnectWallet =>
      rendersMain w c && negb (connected w)
      && (isTransferInProgress (transferState c)
          || (showTransferModal w c && stepIs c connect_destination))
  | ChangeProgramId _ => rendersTable w c
  | ClickSearchProfiles _ => rendersTable w c && negb (loading c)
  | ClickTransferAuth pi row =>
      rendersTable w c && negb (processing c)
      && RowButton_eqb (buttonAt w c pi row) TransferAuthButton
  | ClickDelete pi row _ =>
      rendersTable w c && negb (processing c)
      && RowButton_eqb (buttonAt w c pi row) DeleteButton
  | ChangeDestination _ => rendersModal w c && stepIs c enter_destination
  | ClickCancel =>
      rendersModal w c
      && (stepIs c enter_destination || stepIs c connect_destination || stepIs c expired
          || (stepIs c sign_destination && negb (processing c)))
  | ClickContinue =>
      rendersModal w c && stepIs c enter_destination
      && negb (JS.trim (destinationPubkey (transferState c)) =? "")%string
  | ClickBack => rendersModal w c && stepIs c sign_current && negb (processing c)
  | ClickSignCurrent _ => rendersModal w c && stepIs c sign_current && negb (processing c)
  | ClickSwitchWallet =>
      rendersModal w c && stepIs c connect_destination
      && connected w && negb (isCorrectWallet w c)
  | ClickContinueToSign =>
      rendersModal w c && stepIs c connect_destination && isCorrectWallet w c
  | ClickSignDestination _ =>
      rendersModal w c && stepIs c sign_destination && negb (processing c)
  | ClickDone => rendersModal w c && stepIs c complete
  | ClickRestart => rendersModal w c && stepIs c expired
  end.

Definition withComponent (sys : System) (c : Component) : System :=
  {| component := c; wallet := wallet sys |}.

(** What each event runs. *)
Definition dispatch (sys : System) (e : Event) : System * list Call :=
  let c := component sys in
  let w := wallet sys in
  match e with
  | TimerTick now => (withComponent sys (timerEffect now c), [])
  | WalletObserved => (withComponent sys (walletEffect w c), [])
  | WalletChanged w' o =>
      let '(c1, t) := fetchProfiles w' o c in
      ({| component := walletEffect w' c1; wallet := w' |}, t)
  | FetchEffect o | ClickSearchProfiles o =>
      let '(c1, t) := fetchProfiles w o c in (withComponent sys c1, t)
  | ClickConnectWallet => (sys, handleOpenWalletModal)
  | ChangeProgramId v => (withComponent sys (setProgramId v c), [])
  | ClickTransferAuth pi _ =>
      match nth_error (profiles c) pi with
      | Some p => (withComponent sys (openTransferModal w p c), [])
      | None => (sys, [])
      end
  | ClickDelete pi row o =>
      match nth_error (profiles c) pi with
      | Some p => let '(c1, t) := handleDeleteKey w o p row c in (withComponent sys c1, t)
      | None => (sys, [])
      end
  | ChangeDestination v => (withComponent sys (changeDestination v c), [])
  | ClickCancel | ClickDone => (withComponent sys (closeTransferModal c), [])
  | ClickContinue => (withComponent sys (handleDestinationSubmit w c), [])
  | ClickBack => (withComponent sys (backToDestination c), [])
  | ClickSignCurrent o =>
      let '(c1, t) := handleSignWithCurrentWallet w o c in (withComponent sys c1, t)
  | ClickSwitchWallet => (sys, handleDisconnectAndReconnect)
  | ClickContinueToSign => (withComponent sys (continueToSign c), [])
  | ClickSignDestination o =>
      let '(c1, t) := handleSignWithDestinationWallet w o c in (withComponent sys c1, t)
  | ClickRestart => (withComponent sys (handleRestartTransfer c), [])
  end.

(** An event that is not on offer does nothing. *)
Definition fire (sys : System) (e : Event) : System * list Call :=
  if offered sys e then dispatch sys e else (sys, []).

Fixpoint run (sys : System) (es : list Event) : System * list Call :=
  match es with
  | [] => (sys, [])
  | e :: es' =>
      let '(sys1, t1) := fire sys e in
      let '(sys2, t2) := run sys1 es' in
      (sys2, t1 ++ t2)
  end.

Definition initialSystem (pid : string) (w : Wallet) : System :=
  {| component := initialComponent pid; wallet := w |}.

(** The states the component can be in: those some sequence of events
    leads to from the freshly mounted component. *)
Inductive reachable : System -> Prop :=
| reachable_initial pid w : reachable (initialSystem pid w)
| reachable_fire sys e : reachable sys -> reachable (fst (fire sys e)).

End Handlers.

(** ** A concrete address format for the examples

    The text form of a 32-byte key in the Bitcoin base58 alphabet, as
    the web3 constructor accepts it: every character is a base58 digit
    and the decoded byte string (one zero byte per leading [1], then the
    big-endian bytes of the number) is 32 bytes long. *)

Module Base58.

Definition alphabet : string :=
  "123456789ABCDEFGHJKLMNPQRSTUVWXYZabcdefghijkmnopqrstuvwxyz".

Fixpoint digitOf (c : ascii) (alpha : string) : option N :=
  match alpha with
  | EmptyString => None
  | String a alpha' =>
      if Ascii.eqb a c then Some 0%N else option_map N.succ (digitOf c alpha')
  end.

Fixpoint digits (s : string) : option (list N) :=
  match s with
  | EmptyString => Some []
  | String c s' =>
      match digitOf c alphabet, digits s' with
      | Some d, Some ds => Some (d :: ds)
      | _, _ => None
      end
  end.

Fixpoint leadingZeros (ds : list N) : N :=
  match ds with
  | 0%N :: ds' => N.succ (leadingZeros ds')
  | _ => 0%N
  end.

Definition value (ds : list N) : N :=
  fold_left (fun acc d => (acc * 58 + d)%N) ds 0%N.

Definition byteLength (n : N) : N :=
  if (n =? 0)%N then 0%N else (N.log2 n / 8 + 1)%N.

Definition PublicKey_throws (s : string) : option string :=
  match digits s with
  | None => Some "Non-base58 character"
  | Some ds =>
      if (leadingZeros ds + byteLength (value ds) =? 32)%N then None
      else Some "Invalid public key input"
  end.

End Base58.

(** ** Sample data: two wallets, a profile, and the calls succeeding *)

Module Sample.

Definition programId : string := "pprofELXjL5Kck7Jn5hCpwAL82DpTkSYBENzahVtbc9".
Definition A : string := "PprofUW1pURCnMW2si88GWPXEEK3Bvh9Tksy8WtnoYJ".
Definition D : string := "11111111111111111111111111111111".
Definition C : string := "SysvarC1ock11111111111111111111111111111111".

Definition walletOf (a : string) : Wallet :=
  {| publicKey := Some a; signTransaction := true; connected := true |}.

Definition disconnected : Wallet :=
  {| publicKey := None; signTransaction := false; connected := false |}.

Definition authOnly : ProfilePermissions :=
  {| auth := true; addKeys := false; removeKeys := false |}.

Definition noAuth : ProfilePermissions :=
  {| auth := false; addKeys := true; removeKeys := false |}.

Definition profile : PlayerProfile :=
  {| profile_key := programId;
     createdAt := 1700000000;
     keyThreshold := 1;
     profileKeys :=
       [ {| key := A; permissions := authOnly; expireTime := -1 |};
         {| key := C; permissions := noAuth; expireTime := -1 |} ] |}.

Definition fetched : FetchOutcomes :=
  {| accountInfo := Ok true;
     programAccounts := Ok 1%nat;
     readAll := Ok [ReadOk profile] |}.

Definition adjustAuthIx : Instruction :=
  {| keys := [ {| pubkey := A; isSigner := true; isWritable := false |};
               {| pubkey := programId; isSigner := false; isWritable := true |} ];
     data := "adjustAuth" |}.

Definition firstSigned (now : Z) : SignCurrentOutcomes :=
  {| adjustAuthIxs := Ok [adjustAuthIx];
     latestBlockhash := Ok "blockhash";
     currentSigned := Ok tt;
     dateNow := now |}.

Definition secondSigned : SignDestinationOutcomes :=
  {| destinationSigned := Ok tt;
     sendRawTransaction := Ok "signature";
     confirmBlockhash := Ok "blockhash";
     confirmTransaction := Ok tt |}.

Definition removed : DeleteOutcomes :=
  {| removeKeysIxs := Ok [ {| keys := []; data := "removeKeys" |} ];
     deleteBlockhash := Ok "blockhash";
     sendTransaction := Ok "signature";
     deleteConfirmed := Ok tt;
     refetch := fetched |}.

Definition start : System := initialSystem programId (walletOf A).

(** The run of the specification's scenario up to the first signature,
    obtained at time [1000] (milliseconds). *)
Definition toConnectDestination (dest : string) : list Event :=
  [ FetchEffect fetched;
    ClickTransferAuth 0 0;
    ChangeDestination dest;
    ClickContinue;
    ClickSignCurrent (firstSigned 1000) ].

Definition go (es : list Event) : System * list Call :=
  run Base58.PublicKey_throws start es.

Definition after (es : list Event) : System := fst (go es).

(** A fetch that finds the program but no profile. *)
Definition nothingFound : FetchOutcomes :=
  {| accountInfo := Ok true;
     programAccounts := Ok 0%nat;
     readAll := Ok [] |}.

(** The modal just opened by wallet [A], and with a destination typed. *)
Definition opened : list Event := [FetchEffect fetched; ClickTransferAuth 0 0].

Definition typed (dest : string) : list Event := opened ++ [ChangeDestination dest].

(** The first signature obtained at time 1000, the destination wallet
    then connected: the session is in [sign_destination]. *)
Definition toSignDestination : list Event :=
  toConnectDestination D ++ [WalletChanged (walletOf D) fetched].

(** A wrong wallet connected while waiting for the destination. *)
Definition wrongWallet : list Event :=
  toConnectDestination D ++ [WalletChanged (walletOf C) fetched].

(** The transaction the second-signature handler sends in the sample run. *)
Definition sentTx : Transaction :=
  {| instructions := [adjustAuthIx];
     recentBlockhash := Some "blockhash";
     feePayer := Some D;
     signatures := [A; D] |}.

End Sample.

(** ** Classes of calls, and the invariant of the stored transaction *)

Definition isRead (c : Call) : bool :=
  match c with
  | CallGetAccountInfo _ | CallGetProgramAccounts _ | CallReadAllFromRPC _ _ => true
  | _ => false
  end.

Definition isRemoveKeys (c : Call) : bool :=
  match c with
  | CallRemoveKeys _ _ _ => true
  | _ => false
  end.

(** Handing a transaction to the network. *)
Definition isSubmit (c : Call) : bool :=
  match c with
  | CallSendTransaction _ _ | CallSendRawTransaction _ => true
  | _ => false
  end.


(** The forward transitions of the transfer state machine. *)
Definition isForward (a b : TransferStep) : bool :=
  match a, b with
  | enter_destination, sign_current
  | sign_current, connect_destination
  | connect_destination, sign_destination
  | sign_destination, complete
  | expired, sign_current => true
  | _, _ => false
  end.

(** [a] is the address of an auth key of [p], as
    [handleSignWithCurrentWallet] checks it of the connected wallet. *)
Definition holdsAuth (p : PlayerProfile) (a : string) : Prop :=
  exists i, findIndex (isAuthKeyOf a) (profileKeys p) = Some i.

(** While a partially signed transaction is stored, a transfer is in
    progress, the transaction's fee payer is the session's destination,
    and it carries the signature of an auth key of the selected
    profile. *)
Definition storedTxInvariant (c : Component) : Prop :=
  forall stored,
    partiallySignedTx (transferState c) = Some stored ->
    isTransferInProgress (transferState c) = true
    /\ feePayer stored = Some (destinationPubkey (transferState c))
    /\ exists p a,
         selectedProfile c = Some p /\ holdsAuth p a /\ In a (signatures stored).

(** ** The countdown as displayed *)





(** ** The RPC endpoint setting

    [WalletContextProvider] keeps the endpoint in a state cell and in
    [localStorage] under one key; [RpcSettings] edits it.  The default
    endpoint, [clusterApiUrl (network)], is a parameter. *)

Module Rpc.

(** [localStorage], a map from keys to values. *)
Definition Storage : Type := list (string * string).

Fixpoint getItem (k : string) (ls : Storage) : option string :=
  match ls with
  | [] => None
  | (k', v) :: ls' => if (k' =? k)%string then Some v else getItem k ls'
  end.

Fixpoint removeItem (k : string) (ls : Storage) : Storage :=
  match ls with
  | [] => []
  | (k', v) :: ls' =>
      if (k' =? k)%string then removeItem k ls' else (k', v) :: removeItem k ls'
  end.

Definition setItem (k v : string) (ls : Storage) : Storage :=
  (k, v) :: removeItem k ls.

Definition storageKey : string := "custom_rpc_url".

(** The provider's [rpcUrl] with the storage behind it, and the two
    state cells of the settings dialog. *)
Record State := {
  rpcUrl : string;
  localStorage : Storage;
  isOpen : bool;
  inputValue : string;
}.

(** First render: [localStorage.getItem (key) || defaultEndpoint], the
    dialog closed and its input holding the endpoint. *)
Definition mount (defaultEndpoint : string) (ls : Storage) : State :=
  let url := match JS.orNull (getItem storageKey ls) with
             | Some u => u
             | None => defaultEndpoint
             end in
  {| rpcUrl := url; localStorage := ls; isOpen := false; inputValue := url |}.

Definition setRpcUrl (url : string) (st : State) : State :=
  {| rpcUrl := url;
     localStorage := setItem storageKey url (localStorage st);
     isOpen := isOpen st;
     inputValue := inputValue st |}.

Definition resetRpcUrl (defaultEndpoint : string) (st : State) : State :=
  {| rpcUrl := defaultEndpoint;
     localStorage := removeItem storageKey (localStorage st);
     isOpen := isOpen st;
     inputValue := inputValue st |}.

Definition isCustom (defaultEndpoint : string) (st : State) : bool :=
  negb (rpcUrl st =? defaultEndpoint)%string.

Definition setIsOpen (v : bool) (st : State) : State :=
  {| rpcUrl := rpcUrl st; localStorage := localStorage st;
     isOpen := v; inputValue := inputValue st |}.

Definition setInputValue (v : string) (st : State) : State :=
  {| rpcUrl := rpcUrl st; localStorage := localStorage st;
     isOpen := isOpen st; inputValue := v |}.

Definition handleSave (st : State) : State :=
  if JS.truthyString (Some (JS.trim (inputValue st)))
  then setIsOpen false (setRpcUrl (JS.trim (inputValue st)) st)
  else st.

Definition handleReset (defaultEndpoint : string) (st : State) : State :=
  setIsOpen false (resetRpcUrl defaultEndpoint st).

Definition handleOpen (st : State) : State :=
  setIsOpen true (setInputValue (rpcUrl st) st).

End Rpc.

(** ** The shape of the session along a run *)



(** What an event did to the session, the selected profile and the
    modal flag: one case per kind of update the component makes.  [t] is
    the trace of the event. *)
Inductive moves (sys : System) (e : Event) (t : list Call) (c' : Component) : Prop :=
| moves_kept :
    selectedProfile c' = selectedProfile (component sys) ->
    modalOpen c' = modalOpen (component sys) ->
    transferState c' = transferState (component sys) ->
    moves sys e t c'
| moves_error (msg : option string) :
    selectedProfile c' = selectedProfile (component sys) ->
    modalOpen c' = modalOpen (component sys) ->
    step (transferState (component sys)) <> idle ->
    transferState c' = with_error msg (transferState (component sys)) ->
    moves sys e t c'
| moves_expired :
    selectedProfile c' = selectedProfile (component sys) ->
    modalOpen c' = modalOpen (component sys) ->
    JS.truthyNumber (signedAt (transferState (component sys))) = true ->
    step (transferState (component sys)) <> complete ->
    step (transferState (component sys)) <> expired ->
    transferState c'
    = with_error (Some expiredMessage) (with_step expired (transferState (component sys))) ->
    moves sys e t c'
| moves_connected (msg : option string) :
    selectedProfile c' = selectedProfile (component sys) ->
    modalOpen c' = modalOpen (component sys) ->
    step (transferState (component sys)) = connect_destination ->
    transferState c'
    = with_error msg (with_step sign_destination (transferState (component sys))) ->
    moves sys e t c'
| moves_opened (pi row : nat) (p : PlayerProfile) (pk : ProfileKey) (me : string) :
    e = ClickTransferAuth pi row ->
    isTransferInProgress (transferState (component sys)) = false ->
    nth_error (profileKeys p) row = Some pk ->
    publicKey (wallet sys) = Some me ->
    isAuthKeyOf me pk = true ->
    c' = openTransferModal (wallet sys) p (component sys) ->
    moves sys e t c'
| moves_closed :
    e = ClickCancel \/ e = ClickDone ->
    step (transferState (component sys)) <> sign_current ->
    c' = closeTransferModal (component sys) ->
    moves sys e t c'
| moves_typed (v : string) :
    selectedProfile c' = selectedProfile (component sys) ->
    modalOpen c' = modalOpen (component sys) ->
    e = ChangeDestination v ->
    step (transferState (component sys)) = enter_destination ->
    transferState c'
    = with_error None (with_destinationPubkey v (transferState (component sys))) ->
    moves sys e t c'
| moves_validated :
    selectedProfile c' = selectedProfile (component sys) ->
    modalOpen c' = modalOpen (component sys) ->
    step (transferState (component sys)) = enter_destination ->
    transferState c'
    = with_error None (with_step sign_current (transferState (component sys))) ->
    moves sys e t c'
| moves_back :
    selectedProfile c' = selectedProfile (component sys) ->
    modalOpen c' = modalOpen (component sys) ->
    step (transferState (component sys)) = sign_current ->
    transferState c'
    = with_error None (with_step enter_destination (transferState (component sys))) ->
    moves sys e t c'
| moves_signed (me : string) (tx : Transaction) (now : Z) :
    selectedProfile c' = selectedProfile (component sys) ->
    modalOpen c' = modalOpen (component sys) ->
    step (transferState (component sys)) = sign_current ->
    In (CallSignTransaction me tx) t ->
    signatures tx = [] ->
    transferState c'
    = with_error None (with_signedAt (Some now)
        (with_partiallySignedTx (Some (addSignature me tx))
           (with_step connect_destination (transferState (component sys))))) ->
    moves sys e t c'
| moves_completed :
    selectedProfile c' = selectedProfile (component sys) ->
    modalOpen c' = modalOpen (component sys) ->
    step (transferState (component sys)) = sign_destination ->
    transferState c'
    = with_error None (with_step complete (transferState (component sys))) ->
    moves sys e t c'
| moves_restarted :
    selectedProfile c' = selectedProfile (component sys) ->
    modalOpen c' = modalOpen (component sys) ->
    step (transferState (component sys)) = expired ->
    transferState c'
    = with_error None (with_signedAt None (with_partiallySignedTx None
        (with_step sign_current (transferState (component sys))))) ->
    moves sys e t c'.

(** More sample data: a profile on which the connected wallet holds a
    second, non-auth key above its auth key, and a stored setting. *)
Module Sample2.

Definition twoKeys : PlayerProfile :=
  {| profile_key := Sample.programId;
     createdAt := 1700000000;
     keyThreshold := 1;
     profileKeys :=
       [ {| key := Sample.A; permissions := Sample.noAuth; expireTime := -1 |};
         {| key := Sample.C; permissions := Sample.authOnly; expireTime := -1 |};
         {| key := Sample.A; permissions := Sample.authOnly; expireTime := -1 |} ] |}.

Definition defaultEndpoint : string := "https://api.mainnet-beta.solana.com".

Definition stored : Rpc.Storage := [("theme", "dark"); (Rpc.storageKey, "https://old.example")].

Definition editing : Rpc.State :=
  Rpc.setInputValue "  https://rpc.example/x  "
    (Rpc.handleOpen (Rpc.mount defaultEndpoint stored)).

Definition blank : Rpc.State :=
  Rpc.setInputValue "   " (Rpc.handleOpen (Rpc.mount defaultEndpoint stored)).

(** A read that decodes one profile out of two results. *)
Definition fetchedTwoKeys : FetchOutcomes :=
  {| accountInfo := Ok true;
     programAccounts := Ok 3%nat;
     readAll := Ok [ReadError; ReadOk twoKeys] |}.

Definition readFails : FetchOutcomes :=
  {| accountInfo := Ok true;
     programAccounts := Ok 3%nat;
     readAll := Throw "429 Too Many Requests" |}.

(** The modal opened on [twoKeys] from the auth row of wallet [A], the
    destination [D] typed and accepted. *)
Definition atSignCurrent : System :=
  fst (run Base58.PublicKey_throws Sample.start
         [ FetchEffect fetchedTwoKeys; ClickTransferAuth 0 2;
           ChangeDestination Sample.D; ClickContinue ]).

(** An instruction that names the destination twice, not as a signer. *)
Definition adjustAuthIx : Instruction :=
  {| keys := [ {| pubkey := Sample.A; isSigner := true; isWritable := false |};
               {| pubkey := Sample.D; isSigner := false; isWritable := true |};
               {| pubkey := Sample.D; isSigner := false; isWritable := false |} ];
     data := "adjustAuth" |}.

Definition signed : SignCurrentOutcomes :=
  {| adjustAuthIxs := Ok [adjustAuthIx];
     latestBlockhash := Ok "blockhash";
     currentSigned := Ok tt;
     dateNow := 1000 |}.

Definition refused : SignCurrentOutcomes :=
  {| adjustAuthIxs := Ok [adjustAuthIx];
     latestBlockhash := Ok "blockhash";
     currentSigned := Throw "User rejected the request.";
     dateNow := 1000 |}.

Definition unconfirmed : DeleteOutcomes :=
  {| removeKeysIxs := Ok [ {| keys := []; data := "removeKeys" |} ];
     deleteBlockhash := Ok "blockhash";
     sendTransaction := Ok "signature";
     deleteConfirmed := Throw "Transaction was not confirmed";
     refetch := Sample.fetched |}.

Definition sendFails : SignDestinationOutcomes :=
  {| destinationSigned := Ok tt;
     sendRawTransaction := Throw "Blockhash not found";
     confirmBlockhash := Ok "blockhash";
     confirmTransaction := Ok tt |}.

End Sample2.

(** * Properties *)

Lemma TransferStep_eqb_eq (a b : TransferStep) :
  TransferStep_eqb a b = true <-> a = b.
Proof. destruct a, b; simpl; split; intro H; try reflexivity; discriminate H. Qed.

Lemma isTransferInProgress_steps (s : TransferState) :
  isTransferInProgress s = true <->
  In (step s) [connect_destination; sign_destination; expired; complete].
Proof.
  unfold isTransferInProgress. destruct (step s); simpl; split; intro H;
    try reflexivity; try discriminate H; try tauto;
    repeat (destruct H as [H | H]; try discriminate H); try contradiction.
Qed.

Section Properties.

Variable PublicKey_throws : string -> option string.

(** ** Restart *)

(** C7. Restarting puts the session in [sign_current], clears exactly
    [partiallySignedTx], [signedAt] and [error], and leaves the
    destination address and every other field of the session (and every
    other state cell of the component) as they were; this holds from any
    state, and so from [expired]. *)
Theorem handleRestartTransfer_frame (c : Component) :
  let s := transferState c in
  let c' := handleRestartTransfer c in
  let s' := transferState c' in
  (step s' = sign_current /\ partiallySignedTx s' = None
   /\ signedAt s' = None /\ error s' = None)
  /\ (destinationPubkey s' = destinationPubkey s
      /\ originalAuthPubkey s' = originalAuthPubkey s
      /\ profileKey s' = profileKey s
      /\ profileCreatedAt s' = profileCreatedAt s
      /\ profileKeyThreshold s' = profileKeyThreshold s)
  /\ (profiles c' = profiles c /\ loading c' = loading c
      /\ processing c' = processing c /\ selectedProfile c' = selectedProfile c
      /\ modalOpen c' = modalOpen c /\ programId c' = programId c
      /\ debugInfo c' = debugInfo c /\ timeRemaining c' = timeRemaining c).
Proof. simpl. repeat split. Qed.

(** ** Wallet reconciliation in [connect_destination] *)

Lemma walletEffect_disconnected (w : Wallet) (c : Component) :
  JS.orNull (publicKey w) = None -> walletEffect w c = c.
Proof. intro H. unfold walletEffect. rewrite H. reflexivity. Qed.

Lemma walletEffect_other_step (w : Wallet) (c : Component) :
  step (transferState c) <> connect_destination -> walletEffect w c = c.
Proof.
  intro H. unfold walletEffect.
  destruct (JS.orNull (publicKey w)); [| reflexivity].
  destruct (TransferStep_eqb (step (transferState c)) connect_destination) eqn:E;
    [| reflexivity].
  apply TransferStep_eqb_eq in E. contradiction.
Qed.

(** C5. In [connect_destination], when the wallet changes and the
    connected identity is the destination address, the effect alone moves
    the session to [sign_destination]; when the identity is neither the
    destination nor the original address, the session keeps its step and
    records the wrong-wallet message, which names the expected
    destination by its first and last four characters.  No click is
    involved and no call is made. *)
Theorem connect_destination_reconciliation
  (sys : System) (w' : Wallet) (o : FetchOutcomes) (a : string) :
  let c := component sys in
  let s := transferState c in
  step s = connect_destination ->
  JS.orNull (publicKey w') = Some a ->
  (a = destinationPubkey s ->
   fire PublicKey_throws sys (WalletChanged w' o)
   = ({| component := setTransferState (fun _ => with_error None (with_step sign_destination s)) c;
         wallet := w' |}, []))
  /\ (a <> destinationPubkey s -> a <> originalAuthPubkey s ->
      fire PublicKey_throws sys (WalletChanged w' o)
      = ({| component :=
              setTransferState
                (fun _ => with_error
                            (Some ("Wrong wallet connected. Expected: "
                                   ++ JS.sliceFirst 4 (destinationPubkey s) ++ "..."
                                   ++ JS.sliceLast 4 (destinationPubkey s))%string) s) c;
            wallet := w' |}, [])).
Proof.
  intros c s Hstep Ha. unfold fire, offered, dispatch, fetchProfiles.
  fold c. fold s.
  assert (Hin : isTransferInProgress s = true).
  { apply isTransferInProgress_steps. rewrite Hstep. simpl. auto. }
  rewrite Hin. unfold walletEffect. fold s. rewrite Ha, Hstep. simpl.
  split.
  - intros ->. rewrite String.eqb_refl. reflexivity.
  - intros Hd Ho.
    apply String.eqb_neq in Hd. apply String.eqb_neq in Ho.
    rewrite Hd, Ho. reflexivity.
Qed.

(** ** Disconnecting *)

(** C6. When the wallet disconnects while the step is
    [connect_destination], [sign_destination], [expired] or [complete],
    the effects the change sets off (the profile fetch and the wallet
    watch) make no call and leave the whole component, and with it
    [step], [destinationPubkey], [originalAuthPubkey],
    [partiallySignedTx] and [signedAt], untouched.  The [Switch Wallet]
    button, which asks the wallet to disconnect, writes no state
    either. *)
Theorem disconnect_keeps_session (sys : System) (w' : Wallet) (o : FetchOutcomes) :
  publicKey w' = None ->
  In (step (transferState (component sys)))
     [connect_destination; sign_destination; expired; complete] ->
  fire PublicKey_throws sys (WalletChanged w' o)
  = ({| component := component sys; wallet := w' |}, [])
  /\ fst (fire PublicKey_throws sys ClickSwitchWallet) = sys.
Proof.
  intros Hw Hin. apply isTransferInProgress_steps in Hin. split.
  - unfold fire, offered, dispatch, fetchProfiles. rewrite Hin.
    rewrite walletEffect_disconnected; [reflexivity |].
    rewrite Hw. reflexivity.
  - unfold fire. destruct (offered sys ClickSwitchWallet); reflexivity.
Qed.

(** ** Suspension of the profile fetch *)

(** C9, as the code has it.  From the first signature until the result
    is acknowledged (steps [connect_destination], [sign_destination],
    [expired], [complete]) [fetchProfiles] makes no call and changes
    nothing.  The guard does not cover [idle], [enter_destination] and
    [sign_current]: there, with a wallet connected and a program id
    that parses, the fetch starts by reading the program account. *)
Theorem fetchProfiles_suspended (w : Wallet) (o : FetchOutcomes) (c : Component) :
  (In (step (transferState c))
      [connect_destination; sign_destination; expired; complete] ->
   fetchProfiles PublicKey_throws w o c = (c, []))
  /\ (In (step (transferState c)) [idle; enter_destination; sign_current] ->
      forall me,
        publicKey w = Some me -> programBuilt PublicKey_throws c = true ->
        exists t, snd (fetchProfiles PublicKey_throws w o c)
                  = CallGetAccountInfo (programId c) :: t).
Proof.
  split.
  - intro Hin. apply isTransferInProgress_steps in Hin.
    unfold fetchProfiles. rewrite Hin. reflexivity.
  - intros Hin me Hw Hp.
    assert (Hout : isTransferInProgress (transferState c) = false).
    { unfold isTransferInProgress.
      destruct Hin as [<- | [<- | [<- | []]]]; reflexivity. }
    unfold fetchProfiles. rewrite Hout, Hw, Hp.
    destruct o as [[[|] |] [|] [|]]; cbn; eexists; reflexivity.
Qed.

(** ** Validation of the destination address *)

(** C3, as the code has it.  Submitting from [enter_destination] makes
    no call.  The session advances to [sign_current], with the error
    cleared, exactly when the trimmed address is accepted by the key
    constructor and differs from the address of the wallet connected at
    that moment; otherwise only [error] changes, to a validation
    message, and the step stays [enter_destination]. *)
Theorem destination_submit_validation (sys : System) :
  let c := component sys in
  let w := wallet sys in
  let s := transferState c in
  let dest := JS.trim (destinationPubkey s) in
  let r := dispatch PublicKey_throws sys ClickContinue in
  let s' := transferState (component (fst r)) in
  step s = enter_destination ->
  snd r = []
  /\ ((PublicKey_throws dest = None /\ publicKey w <> Some dest
       /\ s' = with_error None (with_step sign_current s))
      \/ ((PublicKey_throws dest <> None \/ publicKey w = Some dest)
          /\ step s' = enter_destination
          /\ (error s' = Some "Invalid Solana address"
              \/ error s' = Some "Destination cannot be the same as current wallet")
          /\ s' = with_error (error s') s)).
Proof.
  intros c w s dest r s' Hstep. split; [reflexivity |].
  subst r s'. simpl. unfold handleDestinationSubmit. fold c s dest w.
  destruct (PublicKey_throws dest) as [msg |] eqn:Hk.
  - right. simpl. fold s. repeat split; auto. left. discriminate.
  - destruct (publicKey w) as [me |] eqn:Hw.
    + destruct (String.eqb_spec dest me) as [-> | Hne].
      * right. simpl. fold s. repeat split; auto.
      * left. repeat split; auto. intros [= E]. auto.
    + left. repeat split; auto. discriminate.
Qed.

(** C10, as the code has it.  Let the typed destination carry white
    space at either end, its trimmed form being accepted by the key
    constructor and different from the connected wallet's address.
    Submitting then advances to [sign_current] and the session keeps the
    text as typed.  Every later use reads that text: the first-signature
    handler parses it (and records the failure, making no call, when the
    constructor rejects it), the wallet watch compares it with the
    connected identity, and so does the guard of the second-signature
    handler; an address without surrounding white space never equals
    it, so the watch does not advance and the guard refuses. *)
Theorem untrimmed_destination_is_stored (w : Wallet) (c : Component) (input : string) :
  destinationPubkey (transferState c) = input ->
  JS.trim input <> input ->
  PublicKey_throws (JS.trim input) = None ->
  publicKey w <> Some (JS.trim input) ->
  let c1 := handleDestinationSubmit PublicKey_throws w c in
  transferState c1 = with_error None (with_step sign_current (transferState c))
  /\ destinationPubkey (transferState c1) = input
  /\ forall (c2 : Component) (w2 : Wallet) (a : string),
       destinationPubkey (transferState c2) = input ->
       publicKey w2 = Some a ->
       (forall o msg p,
           PublicKey_throws input = Some msg ->
           signTransaction w2 = true -> selectedProfile c2 = Some p ->
           handleSignWithCurrentWallet PublicKey_throws w2 o c2
           = (setProcessing false
                (setTransferState (with_error (Some ("Failed to sign: " ++ msg)%string)) c2),
              []))
       /\ (JS.trim a = a ->
           a <> input
           /\ step (transferState (walletEffect w2 c2)) = step (transferState c2)
           /\ forall o,
               snd (handleSignWithDestinationWallet w2 o c2) = []
               /\ step (transferState (fst (handleSignWithDestinationWallet w2 o c2)))
                  = step (transferState c2)).
Proof.
  intros Hd Htrim Hvalid Hw c1. subst c1.
  assert (Hsub : transferState (handleDestinationSubmit PublicKey_throws w c)
                 = with_error None (with_step sign_current (transferState c))).
  { unfold handleDestinationSubmit. rewrite Hd, Hvalid.
    destruct (publicKey w) as [me |]; [| reflexivity].
    destruct (String.eqb_spec (JS.trim input) me) as [E | _]; [| reflexivity].
    subst me. contradiction Hw. reflexivity. }
  split; [exact Hsub |]. split; [rewrite Hsub; exact Hd |].
  intros c2 w2 a Hd2 Hw2. split.
  - intros o msg p Hbad Hsign Hsel.
    unfold handleSignWithCurrentWallet, newPublicKey.
    rewrite Hw2, Hsign, Hsel, Hd2, Hbad. simpl.
    destruct c2; reflexivity.
  - intros Ha.
    assert (Hne : a <> input) by (intros ->; contradiction).
    split; [exact Hne |]. apply String.eqb_neq in Hne. split.
    + unfold walletEffect. unfold JS.orNull. rewrite Hw2.
      destruct (JS.truthyString (Some a)); [| reflexivity].
      rewrite Hd2, Hne.
      destruct (TransferStep_eqb _ _); [| reflexivity].
      destruct (negb _); reflexivity.
    + intro o. unfold handleSignWithDestinationWallet.
      rewrite Hw2, Hd2, Hne.
      destruct (signTransaction w2); [| split; reflexivity].
      destruct (partiallySignedTx (transferState c2)); split; reflexivity.
Qed.

(** ** Expiry *)







(** ** What each handler calls and which cells it writes *)

Lemma fetchProfiles_reads (w : Wallet) (o : FetchOutcomes) (c : Component) :
  forallb isRead (snd (fetchProfiles PublicKey_throws w o c)) = true.
Proof.
  unfold fetchProfiles.
  destruct (isTransferInProgress (transferState c)); [reflexivity |].
  destruct (publicKey w); [| reflexivity].
  destruct (programBuilt PublicKey_throws c); [| reflexivity].
  destruct o as [[[|] | ] [|] [|]]; reflexivity.
Qed.

Lemma fetchProfiles_frame (w : Wallet) (o : FetchOutcomes) (c : Component) :
  let c' := fst (fetchProfiles PublicKey_throws w o c) in
  transferState c' = transferState c /\ selectedProfile c' = selectedProfile c
  /\ processing c' = processing c.
Proof.
  unfold fetchProfiles.
  destruct (isTransferInProgress (transferState c)); [simpl; auto |].
  destruct (publicKey w); [| simpl; auto].
  destruct (programBuilt PublicKey_throws c); [| simpl; auto].
  destruct o as [[[|] | ] [|] [|]]; simpl; auto.
Qed.

Lemma handleDeleteKey_frame (w : Wallet) (o : DeleteOutcomes) (p : PlayerProfile)
  (row : nat) (c : Component) :
  let c' := fst (handleDeleteKey PublicKey_throws w o p row c) in
  transferState c' = transferState c /\ selectedProfile c' = selectedProfile c.
Proof.
  unfold handleDeleteKey.
  destruct (publicKey w) as [me |]; [| simpl; auto].
  destruct (signTransaction w); [| simpl; auto].
  destruct o as [[[| ix ixs] |] [bh |] [sg |] [[] |] fo]; simpl; auto.
  destruct (fetchProfiles_frame w fo (setProcessing true c)) as (H1 & H2 & _).
  destruct (fetchProfiles PublicKey_throws w fo (setProcessing true c)) as [c' t'].
  simpl in *. auto.
Qed.

(** Every remove-keys request of the delete handler addresses the range
    [[keyIndex, keyIndex + 1)] of the given profile, and the handler
    never asks the wallet for a bare signature nor submits a raw
    transaction. *)
Lemma handleDeleteKey_calls (w : Wallet) (o : DeleteOutcomes) (p : PlayerProfile)
  (row : nat) (c : Component) (call : Call) :
  In call (snd (handleDeleteKey PublicKey_throws w o p row c)) ->
  match call with
  | CallRemoveKeys pr first last =>
      pr = profile_key p /\ first = Z.of_nat row /\ last = first + 1
  | CallSignTransaction _ _ | CallSendRawTransaction _ | CallAdjustAuth _ _ _ _ _ _ _ => False
  | _ => True
  end.
Proof.
  unfold handleDeleteKey.
  destruct (publicKey w) as [me |]; [| simpl; tauto].
  destruct (signTransaction w); [| simpl; tauto].
  destruct o as [[[| ix ixs] |] [bh |] [sg |] [[] |] fo];
    try (cbn; intro H; repeat (destruct H as [H | H]; [subst call; cbn; auto |]);
         contradiction).
  cbn.
  pose proof (fetchProfiles_reads w fo (setProcessing true c)) as Hr.
  destruct (fetchProfiles PublicKey_throws w fo (setProcessing true c)) as [c' t'].
  cbn in *. intro H.
  repeat (destruct H as [H | H]; [subst call; cbn; auto |]).
  rewrite forallb_forall in Hr. specialize (Hr call H).
  destruct call; try discriminate Hr; exact I.
Qed.

Lemma handleSignWithCurrentWallet_calls (w : Wallet) (o : SignCurrentOutcomes)
  (c : Component) (call : Call) :
  In call (snd (handleSignWithCurrentWallet PublicKey_throws w o c)) ->
  match call with
  | CallAdjustAuth _ _ _ _ _ _ _ | CallGetLatestBlockhash | CallSignTransaction _ _ => True
  | _ => False
  end.
Proof.
  unfold handleSignWithCurrentWallet, newPublicKey.
  destruct (publicKey w) as [me |]; [| simpl; tauto].
  destruct (signTransaction w); [| simpl; tauto].
  destruct (selectedProfile c) as [p |]; [| simpl; tauto].
  destruct (PublicKey_throws (destinationPubkey (transferState c))); [cbn; tauto |].
  destruct (findIndex (isAuthKeyOf me) (profileKeys p)); [| cbn; tauto].
  destruct o as [[[| ix ixs] |] [bh |] [[] |] now];
    cbn; intro H; repeat (destruct H as [H | H]; [subst call; exact I |]); contradiction.
Qed.

(** What the first-signature handler leaves in the session: the old
    session with at most a new error, or a stored transaction signed by
    the connected wallet, an auth key of the selected profile, with the
    session's destination as fee payer. *)
Lemma handleSignWithCurrentWallet_state (w : Wallet) (o : SignCurrentOutcomes)
  (c : Component) :
  let c' := fst (handleSignWithCurrentWallet PublicKey_throws w o c) in
  let s := transferState c in
  selectedProfile c' = selectedProfile c
  /\ (transferState c' = s
      \/ (exists e, transferState c' = with_error e s)
      \/ (exists stored p me,
             transferState c'
             = with_error None (with_signedAt (Some (dateNow o))
                 (with_partiallySignedTx (Some stored) (with_step connect_destination s)))
             /\ selectedProfile c = Some p /\ publicKey w = Some me
             /\ holdsAuth p me /\ In me (signatures stored)
             /\ feePayer stored = Some (destinationPubkey s))).
Proof.
  unfold handleSignWithCurrentWallet, newPublicKey.
  destruct (publicKey w) as [me |]; [| simpl; auto].
  destruct (signTransaction w); [| simpl; auto].
  destruct (selectedProfile c) as [p |] eqn:Hsel; [| simpl; auto].
  destruct (PublicKey_throws (destinationPubkey (transferState c)));
    [cbn; split; [exact Hsel | right; left; eexists; reflexivity] |].
  destruct (findIndex (isAuthKeyOf me) (profileKeys p)) as [i |] eqn:Hi;
    [| cbn; split; [exact Hsel | right; left; eexists; reflexivity]].
  destruct o as [[[| ix ixs] |] [bh |] [[] |] now]; cbn;
    (split; [exact Hsel |]);
    try (right; left; eexists; reflexivity).
  right; right. eexists _, p, me. split; [reflexivity |].
  repeat split; auto.
  - exists i. exact Hi.
  - cbn. auto.
Qed.

Lemma handleSignWithDestinationWallet_state (w : Wallet) (o : SignDestinationOutcomes)
  (c : Component) :
  let c' := fst (handleSignWithDestinationWallet w o c) in
  let s := transferState c in
  selectedProfile c' = selectedProfile c
  /\ (transferState c' = s
      \/ (exists e, transferState c' = with_error e s)
      \/ transferState c' = with_error None (with_step complete s)).
Proof.
  unfold handleSignWithDestinationWallet.
  destruct (publicKey w) as [me |]; [| simpl; auto].
  destruct (signTransaction w); [| simpl; auto].
  destruct (partiallySignedTx (transferState c)) as [stored |]; [| simpl; auto].
  destruct (negb (me =? destinationPubkey (transferState c))%string);
    [cbn; split; [reflexivity | right; left; eexists; reflexivity] |].
  destruct o as [[[] |] [sg |] [bh |] [[] |]]; cbn;
    (split; [reflexivity |]); auto; right; left; eexists; reflexivity.
Qed.

(** The only raw submission is that of the stored transaction with the
    signature of the connected wallet added, and only when that wallet's
    address is the session's destination. *)
Lemma handleSignWithDestinationWallet_calls (w : Wallet) (o : SignDestinationOutcomes)
  (c : Component) (call : Call) :
  In call (snd (handleSignWithDestinationWallet w o c)) ->
  match call with
  | CallSendRawTransaction tx =>
      exists stored d,
        partiallySignedTx (transferState c) = Some stored
        /\ publicKey w = Some d /\ d = destinationPubkey (transferState c)
        /\ tx = addSignature d stored
  | CallSignTransaction _ _ | CallGetLatestBlockhash | CallConfirmTransaction _ => True
  | _ => False
  end.
Proof.
  unfold handleSignWithDestinationWallet.
  destruct (publicKey w) as [me |]; [| simpl; tauto].
  destruct (signTransaction w); [| simpl; tauto].
  destruct (partiallySignedTx (transferState c)) as [stored |]; [| simpl; tauto].
  destruct (String.eqb_spec me (destinationPubkey (transferState c))) as [E | _];
    [| simpl; tauto].
  destruct o as [[[] |] [sg |] [bh |] [[] |]];
    cbn; intro H;
    repeat (destruct H as [H | H];
            [subst call; try exact I; exists stored, me; auto |]);
    contradiction.
Qed.

(** ** Where the calls of an event come from *)

Lemma fire_calls (sys : System) (e : Event) (call : Call) :
  In call (snd (fire PublicKey_throws sys e)) ->
  offered sys e = true
  /\ match e with
     | ClickDelete pi row o =>
         exists p, nth_error (profiles (component sys)) pi = Some p
                   /\ In call (snd (handleDeleteKey PublicKey_throws (wallet sys) o p row
                                      (component sys)))
     | ClickSignCurrent o =>
         In call (snd (handleSignWithCurrentWallet PublicKey_throws (wallet sys) o
                         (component sys)))
     | ClickSignDestination o =>
         In call (snd (handleSignWithDestinationWallet (wallet sys) o (component sys)))
     | WalletChanged _ _ | FetchEffect _ | ClickSearchProfiles _ => isRead call = true
     | ClickConnectWallet | ClickSwitchWallet =>
         call = CallDisconnect \/ call = CallSetWalletModalVisible
     | _ => False
     end.
Proof.
  unfold fire. destruct (offered sys e) eqn:Hoff; [| simpl; contradiction].
  intro H. split; [reflexivity |].
  destruct e as [now | | w' o | o | | v | o | pi row | pi row o | v
                | | | | o | | | o | | ];
    cbn [dispatch] in H; try (cbn in H; tauto);
    try (cbn in H; intuition congruence).
  - pose proof (fetchProfiles_reads w' o (component sys)) as Hr.
    destruct (fetchProfiles PublicKey_throws w' o (component sys)) as [c1 t].
    cbn in *. rewrite forallb_forall in Hr. auto.
  - pose proof (fetchProfiles_reads (wallet sys) o (component sys)) as Hr.
    destruct (fetchProfiles PublicKey_throws (wallet sys) o (component sys)) as [c1 t].
    cbn in *. rewrite forallb_forall in Hr. auto.
  - pose proof (fetchProfiles_reads (wallet sys) o (component sys)) as Hr.
    destruct (fetchProfiles PublicKey_throws (wallet sys) o (component sys)) as [c1 t].
    cbn in *. rewrite forallb_forall in Hr. auto.
  - destruct (nth_error (profiles (component sys)) pi); cbn in H; contradiction.
  - destruct (nth_error (profiles (component sys)) pi) as [p |]; [| cbn in H; contradiction].
    exists p. split; [reflexivity |].
    destruct (handleDeleteKey PublicKey_throws (wallet sys) o p row (component sys)).
    exact H.
  - destruct (handleSignWithCurrentWallet PublicKey_throws (wallet sys) o (component sys)).
    exact H.
  - destruct (handleSignWithDestinationWallet (wallet sys) o (component sys)).
    exact H.
Qed.

(** ** The delete guard *)

Lemma rowButton_delete (w : Wallet) (pk : ProfileKey) :
  rowButton w pk = DeleteButton -> auth (permissions pk) = false.
Proof.
  unfold rowButton. destruct (auth (permissions pk)); [| reflexivity].
  destruct (publicKey w) as [me |]; [destruct (key pk =? me)%string |]; discriminate.
Qed.

Lemma RowButton_eqb_eq (a b : RowButton) : RowButton_eqb a b = true <-> a = b.
Proof. destruct a, b; simpl; split; intro H; try reflexivity; discriminate H. Qed.

(** C8. Whatever state the component is in and whatever event occurs,
    a remove-keys request comes only from a click on a rendered [Delete]
    button; the row it belongs to holds a key whose [auth] flag is
    false, and the request addresses exactly that row, [[i, i + 1)].
    Hence no key with the [auth] flag set is ever the target. *)
Theorem delete_only_for_non_auth_keys
  (sys : System) (e : Event) (pr : string) (first last : Z) :
  In (CallRemoveKeys pr first last) (snd (fire PublicKey_throws sys e)) ->
  exists pi row o p pk,
    e = ClickDelete pi row o
    /\ nth_error (profiles (component sys)) pi = Some p
    /\ nth_error (profileKeys p) row = Some pk
    /\ auth (permissions pk) = false
    /\ pr = profile_key p /\ first = Z.of_nat row /\ last = first + 1.
Proof.
  intro H. apply fire_calls in H. destruct H as [Hoff H].
  destruct e as [now | | w' o | o | | v | o | pi row | pi row o | v
                | | | | o | | | o | | ];
    try contradiction; try (cbn in H; discriminate H);
    try (destruct H as [H | H]; discriminate H).
  - destruct H as (p & Hp & H).
    apply handleDeleteKey_calls in H. destruct H as (-> & -> & ->).
    cbn in Hoff. apply andb_true_iff in Hoff. destruct Hoff as [_ Hb].
    apply RowButton_eqb_eq in Hb. unfold buttonAt in Hb. rewrite Hp in Hb.
    destruct (nth_error (profileKeys p) row) as [pk |] eqn:Hk; [| discriminate Hb].
    exists pi, row, o, p, pk. repeat split; auto.
    eapply rowButton_delete; eassumption.
  - apply handleSignWithCurrentWallet_calls in H. contradiction.
  - apply handleSignWithDestinationWallet_calls in H. contradiction.
Qed.

(** ** The stored transaction along every run *)

Lemma invariant_none (c : Component) :
  partiallySignedTx (transferState c) = None -> storedTxInvariant c.
Proof. intros H stored Hs. rewrite H in Hs. discriminate Hs. Qed.

Lemma invariant_weaken (c c' : Component) :
  partiallySignedTx (transferState c') = partiallySignedTx (transferState c) ->
  destinationPubkey (transferState c') = destinationPubkey (transferState c) ->
  selectedProfile c' = selectedProfile c ->
  (isTransferInProgress (transferState c) = true ->
   isTransferInProgress (transferState c') = true) ->
  storedTxInvariant c -> storedTxInvariant c'.
Proof.
  intros Hp Hd Hs Hi Hinv stored Hst. rewrite Hp in Hst.
  destruct (Hinv stored Hst) as (H1 & H2 & H3).
  rewrite Hd, Hs. auto.
Qed.

Lemma invariant_frame (c c' : Component) :
  transferState c' = transferState c -> selectedProfile c' = selectedProfile c ->
  storedTxInvariant c -> storedTxInvariant c'.
Proof.
  intros Ht Hs. apply invariant_weaken; try rewrite Ht; auto.
Qed.

Lemma invariant_outside (c : Component) (v : TransferStep) :
  storedTxInvariant c -> stepIs c v = true ->
  isTransferInProgress (with_step v (transferState c)) = false ->
  partiallySignedTx (transferState c) = None.
Proof.
  intros Hinv Hv Hout. apply TransferStep_eqb_eq in Hv.
  destruct (partiallySignedTx (transferState c)) as [stored |] eqn:Hs; [| reflexivity].
  destruct (Hinv stored Hs) as (Hin & _).
  unfold isTransferInProgress in *. cbn in Hout. rewrite Hv in Hin.
  rewrite Hin in Hout. discriminate Hout.
Qed.

Lemma walletEffect_state (w : Wallet) (c : Component) :
  let c' := walletEffect w c in
  let s := transferState c in
  selectedProfile c' = selectedProfile c
  /\ (transferState c' = s
      \/ (exists e, transferState c' = with_error e s)
      \/ transferState c' = with_error None (with_step sign_destination s)).
Proof.
  unfold walletEffect.
  destruct (JS.orNull (publicKey w)) as [a |]; [| simpl; auto].
  destruct (TransferStep_eqb _ _); [| simpl; auto].
  destruct (a =? _)%string; [simpl; auto |].
  destruct (negb _); simpl; auto.
  split; [reflexivity |]. right; left. eexists; reflexivity.
Qed.

Lemma timerEffect_state (now : Z) (c : Component) :
  let c' := timerEffect now c in
  let s := transferState c in
  selectedProfile c' = selectedProfile c
  /\ (transferState c' = s
      \/ transferState c' = with_error (Some expiredMessage) (with_step expired s)).
Proof.
  unfold timerEffect, updateTimer.
  destruct (timerIdle (transferState c)); [cbn; auto |].
  destruct (signedAt (transferState c)); [| cbn; auto].
  destruct (_ <=? 0); cbn; auto.
Qed.

(** A session that only moved among the steps of a transfer in
    progress, with a possibly different error. *)
Lemma invariant_moved (c c' : Component) (v : TransferStep) :
  selectedProfile c' = selectedProfile c ->
  (transferState c' = transferState c
   \/ (exists e, transferState c' = with_error e (transferState c))
   \/ (exists e, transferState c' = with_error e (with_step v (transferState c)))) ->
  isTransferInProgress (with_step v (transferState c)) = true ->
  storedTxInvariant c -> storedTxInvariant c'.
Proof.
  intros Hs Ht Hv.
  destruct Ht as [Ht | [[e Ht] | [e Ht]]]; apply invariant_weaken;
    try rewrite Ht; auto.
Qed.

Ltac split_offer H :=
  repeat match type of H with
         | (_ && _)%bool = true =>
             let H' := fresh "Hoff" in
             apply andb_true_iff in H; destruct H as [H H']
         end.

Lemma fire_preserves_invariant (sys : System) (e : Event) :
  storedTxInvariant (component sys) ->
  storedTxInvariant (component (fst (fire PublicKey_throws sys e))).
Proof.
  intro Hinv. unfold fire.
  destruct (offered sys e) eqn:Hoff; [| exact Hinv].
  destruct e as [now | | w' o | o | | v | o | pi row | pi row o | v
                | | | | o | | | o | | ];
    cbn [dispatch offered] in *.
  - (* TimerTick *)
    destruct (timerEffect_state now (component sys)) as [Hs Ht]. cbn.
    eapply (invariant_moved _ _ expired); eauto.
    destruct Ht as [Ht | Ht]; eauto.
  - (* WalletObserved *)
    destruct (walletEffect_state (wallet sys) (component sys)) as [Hs Ht]. cbn.
    eapply (invariant_moved _ _ sign_destination); eauto.
    destruct Ht as [Ht | [Ht | Ht]]; eauto.
  - (* WalletChanged *)
    destruct (fetchProfiles_frame w' o (component sys)) as (F1 & F2 & _).
    destruct (fetchProfiles PublicKey_throws w' o (component sys)) as [c1 t]. cbn in *.
    destruct (walletEffect_state w' c1) as [Hs Ht]. cbn in Hs, Ht.
    eapply (invariant_moved c1 _ sign_destination); eauto.
    + destruct Ht as [Ht | [Ht | Ht]]; eauto.
    + eapply invariant_frame; eauto.
  - (* FetchEffect *)
    destruct (fetchProfiles_frame (wallet sys) o (component sys)) as (F1 & F2 & _).
    destruct (fetchProfiles PublicKey_throws (wallet sys) o (component sys)) as [c1 t].
    cbn in *. eapply invariant_frame; eauto.
  - exact Hinv.
  - eapply invariant_frame; eauto; reflexivity.
  - (* ClickSearchProfiles *)
    destruct (fetchProfiles_frame (wallet sys) o (component sys)) as (F1 & F2 & _).
    destruct (fetchProfiles PublicKey_throws (wallet sys) o (component sys)) as [c1 t].
    cbn in *. eapply invariant_frame; eauto.
  - (* ClickTransferAuth *)
    destruct (nth_error (profiles (component sys)) pi); [| exact Hinv].
    apply invariant_none. reflexivity.
  - (* ClickDelete *)
    destruct (nth_error (profiles (component sys)) pi) as [p |]; [| exact Hinv].
    destruct (handleDeleteKey_frame (wallet sys) o p row (component sys)) as (F1 & F2).
    destruct (handleDeleteKey PublicKey_throws (wallet sys) o p row (component sys)).
    cbn in *. eapply invariant_frame; eauto.
  - (* ChangeDestination *)
    split_offer Hoff. apply invariant_none. cbn.
    eapply invariant_outside; eauto.
  - apply invariant_none. reflexivity.
  - (* ClickContinue *)
    split_offer Hoff. apply invariant_none. cbn.
    replace (partiallySignedTx
               (transferState (handleDestinationSubmit PublicKey_throws (wallet sys)
                                 (component sys))))
      with (partiallySignedTx (transferState (component sys))).
    + eapply invariant_outside; eauto.
    + unfold handleDestinationSubmit.
      destruct (PublicKey_throws _); [reflexivity |].
      destruct (publicKey (wallet sys)) as [me |]; [| reflexivity].
      match goal with
      | |- context [(?a =? ?b)%string] => destruct (a =? b)%string
      end; reflexivity.
  - (* ClickBack *)
    split_offer Hoff. apply invariant_none. cbn.
    eapply invariant_outside; eauto.
  - (* ClickSignCurrent *)
    split_offer Hoff.
    pose proof (invariant_outside _ _ Hinv Hoff1 eq_refl) as Hnone.
    destruct (handleSignWithCurrentWallet_state (wallet sys) o (component sys))
      as [Hs Ht].
    destruct (handleSignWithCurrentWallet PublicKey_throws (wallet sys) o (component sys))
      as [c1 t]. cbn in *.
    destruct Ht as [Ht | [[e Ht] | (stored & p & me & Ht & Hp & Hw & Ha & Hsig & Hfee)]].
    + apply invariant_none. rewrite Ht. exact Hnone.
    + apply invariant_none. rewrite Ht. exact Hnone.
    + intros stored' Hst. rewrite Ht in *. cbn in *.
      injection Hst as <-. split; [reflexivity | split; [exact Hfee |]].
      exists p, me. rewrite Hs. auto.
  - exact Hinv.
  - (* ClickContinueToSign *)
    cbn. apply (invariant_moved (component sys) _ sign_destination);
      [reflexivity | | reflexivity | exact Hinv].
    right; right. exists (error (transferState (component sys))).
    unfold continueToSign. cbn.
    destruct (transferState (component sys)); reflexivity.
  - (* ClickSignDestination *)
    destruct (handleSignWithDestinationWallet_state (wallet sys) o (component sys))
      as [Hs Ht].
    destruct (handleSignWithDestinationWallet (wallet sys) o (component sys)) as [c1 t].
    cbn in *. eapply (invariant_moved _ _ complete); eauto.
    destruct Ht as [Ht | [Ht | Ht]]; eauto.
  - apply invariant_none. reflexivity.
  - apply invariant_none. reflexivity.
Qed.

Lemma reachable_invariant (sys : System) :
  reachable PublicKey_throws sys -> storedTxInvariant (component sys).
Proof.
  induction 1 as [pid w | sys e _ IH].
  - apply invariant_none. reflexivity.
  - apply fire_preserves_invariant. exact IH.
Qed.

Lemma reachable_run (sys : System) (es : list Event) :
  reachable PublicKey_throws sys ->
  reachable PublicKey_throws (fst (run PublicKey_throws sys es)).
Proof.
  revert sys. induction es as [| e es IH]; intros sys Hr; simpl; [exact Hr |].
  pose proof (reachable_fire PublicKey_throws sys e Hr) as H1.
  destruct (fire PublicKey_throws sys e) as [sys1 t1]. cbn in H1.
  specialize (IH sys1 H1).
  destruct (run PublicKey_throws sys1 es) as [sys2 t2]. exact IH.
Qed.

(** C2. The first-signature handler submits nothing, in any state.
    Along every run from the freshly mounted component, a raw
    transaction reaches the network only from the second-signature
    handler in [sign_destination]; what is sent is the stored partially
    signed transaction with the signature of the connected wallet added,
    that wallet being the destination and the fee payer, and the stored
    transaction already carries the signature of an auth key of the
    selected profile.  So both signatures are present whenever
    [sendRawTransaction] is called. *)
Theorem submission_carries_both_signatures (sys : System) :
  reachable PublicKey_throws sys ->
  (forall w o c,
      existsb isSubmit (snd (handleSignWithCurrentWallet PublicKey_throws w o c)) = false)
  /\ forall e tx,
       In (CallSendRawTransaction tx) (snd (fire PublicKey_throws sys e)) ->
       let c := component sys in
       let s := transferState c in
       (exists o, e = ClickSignDestination o)
       /\ step s = sign_destination
       /\ exists stored d p a,
            partiallySignedTx s = Some stored
            /\ tx = addSignature d stored
            /\ publicKey (wallet sys) = Some d
            /\ d = destinationPubkey s
            /\ feePayer tx = Some d
            /\ selectedProfile c = Some p /\ holdsAuth p a
            /\ In a (signatures tx) /\ In d (signatures tx).
Proof.
  intro Hreach. split.
  - intros w o c.
    destruct (existsb isSubmit _) eqn:E; [| reflexivity].
    apply existsb_exists in E. destruct E as (call & Hin & Hsub).
    apply handleSignWithCurrentWallet_calls in Hin.
    destruct call; try contradiction; discriminate Hsub.
  - intros e tx Hin c s.
    apply fire_calls in Hin. destruct Hin as [Hoff Hin].
    destruct e as [now | | w' o | o | | v | o | pi row | pi row o | v
                  | | | | o | | | o | | ];
      try contradiction; try (cbn in Hin; discriminate Hin);
      try (destruct Hin as [Hin | Hin]; discriminate Hin).
    + destruct Hin as (p & _ & Hin). apply handleDeleteKey_calls in Hin. contradiction.
    + apply handleSignWithCurrentWallet_calls in Hin. contradiction.
    + apply handleSignWithDestinationWallet_calls in Hin.
      destruct Hin as (stored & d & Hst & Hw & Hd & Htx).
      split; [eexists; reflexivity |].
      cbn in Hoff. split_offer Hoff. apply TransferStep_eqb_eq in Hoff1.
      split; [exact Hoff1 |].
      destruct (reachable_invariant sys Hreach stored Hst) as (_ & Hfee & p & a & Hp & Ha & Hsig).
      exists stored, d, p, a. subst tx. cbn.
      repeat split; auto.
      * rewrite Hfee. fold c s. rewrite Hd. reflexivity.
      * apply in_or_app. left. exact Hsig.
      * apply in_or_app. right. left. reflexivity.
Qed.

(** ** Clearing of the error *)

Lemma isForward_irrefl (a : TransferStep) : isForward a a = false.
Proof. destruct a; reflexivity. Qed.

(** X18. Every event that moves the session along a forward transition
    leaves [error] null, the [Continue to Sign] click excepted. *)
Lemma forward_transition_clears_error (sys : System) (e : Event) :
  let s := transferState (component sys) in
  let s' := transferState (component (fst (fire PublicKey_throws sys e))) in
  e <> ClickContinueToSign ->
  isForward (step s) (step s') = true ->
  error s' = None.
Proof.
  intros s s' Hne. subst s s'. unfold fire.
  destruct (offered sys e) eqn:Hoff;
    [| cbn; rewrite isForward_irrefl; discriminate].
  destruct e as [now | | w' o | o | | v | o | pi row | pi row o | v
                | | | | o | | | o | | ];
    cbn [dispatch offered] in *;
    try (cbn; rewrite isForward_irrefl; discriminate);
    try (cbn; destruct (step (transferState (component sys))); discriminate).
  - (* TimerTick *)
    destruct (timerEffect_state now (component sys)) as [_ [Ht | Ht]];
      cbn; rewrite Ht; cbn;
      [rewrite isForward_irrefl; discriminate
      | destruct (step (transferState (component sys))); discriminate].
  - (* WalletObserved *)
    destruct (walletEffect_state (wallet sys) (component sys)) as [_ [Ht | [[x Ht] | Ht]]];
      cbn; rewrite Ht; cbn; try reflexivity;
      rewrite isForward_irrefl; discriminate.
  - (* WalletChanged *)
    destruct (fetchProfiles_frame w' o (component sys)) as (F1 & _).
    destruct (fetchProfiles PublicKey_throws w' o (component sys)) as [c1 t]. cbn in *.
    destruct (walletEffect_state w' c1) as [_ [Ht | [[x Ht] | Ht]]];
      cbn in Ht; rewrite Ht, F1; cbn; try reflexivity;
      rewrite isForward_irrefl; discriminate.
  - (* FetchEffect *)
    destruct (fetchProfiles_frame (wallet sys) o (component sys)) as (F1 & _).
    destruct (fetchProfiles PublicKey_throws (wallet sys) o (component sys)) as [c1 t].
    cbn in *. rewrite F1, isForward_irrefl. discriminate.
  - (* ClickSearchProfiles *)
    destruct (fetchProfiles_frame (wallet sys) o (component sys)) as (F1 & _).
    destruct (fetchProfiles PublicKey_throws (wallet sys) o (component sys)) as [c1 t].
    cbn in *. rewrite F1, isForward_irrefl. discriminate.
  - (* ClickTransferAuth *)
    destruct (nth_error (profiles (component sys)) pi); cbn;
      [reflexivity | rewrite isForward_irrefl; discriminate].
  - (* ClickDelete *)
    destruct (nth_error (profiles (component sys)) pi) as [p |];
      [| cbn; rewrite isForward_irrefl; discriminate].
    destruct (handleDeleteKey_frame (wallet sys) o p row (component sys)) as (F1 & _).
    destruct (handleDeleteKey PublicKey_throws (wallet sys) o p row (component sys)).
    cbn in *. rewrite F1, isForward_irrefl. discriminate.
  - (* ClickContinue *)
    cbn. unfold handleDestinationSubmit.
    destruct (PublicKey_throws _); [cbn; rewrite isForward_irrefl; discriminate |].
    destruct (publicKey (wallet sys)) as [me |]; [| reflexivity].
    match goal with
    | |- context [(?a =? ?b)%string] => destruct (a =? b)%string
    end; [cbn; rewrite isForward_irrefl; discriminate | reflexivity].
  - (* ClickSignCurrent *)
    destruct (handleSignWithCurrentWallet_state (wallet sys) o (component sys))
      as [_ [Ht | [[x Ht] | (stored & p & me & Ht & _)]]];
      destruct (handleSignWithCurrentWallet PublicKey_throws (wallet sys) o (component sys));
      cbn in *; rewrite Ht; cbn; try reflexivity;
      rewrite isForward_irrefl; discriminate.
  - contradiction Hne. reflexivity.
  - (* ClickSignDestination *)
    destruct (handleSignWithDestinationWallet_state (wallet sys) o (component sys))
      as [_ [Ht | [[x Ht] | Ht]]];
      destruct (handleSignWithDestinationWallet (wallet sys) o (component sys));
      cbn in *; rewrite Ht; cbn; try reflexivity;
      rewrite isForward_irrefl; discriminate.
  - (* ClickRestart *)
    intros _. reflexivity.
Qed.

End Properties.

(** * Addresses carry no white space *)

Lemma base58_digit_not_white (c : ascii) (d : N) :
  Base58.digitOf c Base58.alphabet = Some d -> JS.isWhiteSpace c = false.
Proof.
  destruct c as [[] [] [] [] [] [] [] []]; vm_compute; intro H;
    first [reflexivity | discriminate H].
Qed.

Lemma trimEnd_no_white (s : string) :
  (forall c, In c (list_ascii_of_string s) -> JS.isWhiteSpace c = false) ->
  JS.trimEnd s = s.
Proof.
  induction s as [| c s IH]; intro H; simpl; [reflexivity |].
  rewrite IH by (intros c' Hc'; apply H; right; exact Hc').
  destruct s; [| reflexivity].
  rewrite (H c) by (left; reflexivity). reflexivity.
Qed.

Lemma base58_digits_no_white (s : string) (ds : list N) :
  Base58.digits s = Some ds ->
  forall c, In c (list_ascii_of_string s) -> JS.isWhiteSpace c = false.
Proof.
  revert ds. induction s as [| a s IH]; intros ds H c Hc; simpl in Hc; [contradiction |].
  cbn [Base58.digits] in H.
  destruct (Base58.digitOf a Base58.alphabet) as [d |] eqn:Hd; [| discriminate H].
  destruct (Base58.digits s) as [ds' |]; [| discriminate H].
  destruct Hc as [<- | Hc].
  - eapply base58_digit_not_white; eassumption.
  - eapply IH; [reflexivity | exact Hc].
Qed.

(** An address the key constructor accepts is left alone by [trim]. *)
Lemma valid_address_trimmed (a : string) :
  Base58.PublicKey_throws a = None -> JS.trim a = a.
Proof.
  unfold Base58.PublicKey_throws.
  destruct (Base58.digits a) as [ds |] eqn:Hd; [| intro H; discriminate H].
  intros _. pose proof (base58_digits_no_white a ds Hd) as Hw.
  unfold JS.trim.
  assert (Hs : JS.trimStart a = a).
  { destruct a as [| c a']; [reflexivity |]. simpl.
    rewrite (Hw c) by (left; reflexivity). reflexivity. }
  rewrite Hs. apply trimEnd_no_white. exact Hw.
Qed.

(** * The properties on the sample run, and where the statements fail *)

Lemma connect_destination_reconciliation_witness :
  let sys := Sample.after (Sample.toConnectDestination Sample.D) in
  let right := fire Base58.PublicKey_throws sys
                 (WalletChanged (Sample.walletOf Sample.D) Sample.fetched) in
  let wrong := fire Base58.PublicKey_throws sys
                 (WalletChanged (Sample.walletOf Sample.C) Sample.fetched) in
  (step (transferState (component (fst right))) = sign_destination
   /\ error (transferState (component (fst right))) = None /\ snd right = [])
  /\ (step (transferState (component (fst wrong))) = connect_destination
      /\ error (transferState (component (fst wrong)))
         = Some "Wrong wallet connected. Expected: 1111...1111"
      /\ snd wrong = []).
Proof.
  intros sys right wrong. subst right wrong.
  destruct (connect_destination_reconciliation Base58.PublicKey_throws sys
              (Sample.walletOf Sample.D) Sample.fetched Sample.D eq_refl eq_refl)
    as [H1 _].
  destruct (connect_destination_reconciliation Base58.PublicKey_throws sys
              (Sample.walletOf Sample.C) Sample.fetched Sample.C eq_refl eq_refl)
    as [_ H2].
  rewrite (H1 eq_refl).
  rewrite H2; [| vm_compute; discriminate | vm_compute; discriminate].
  vm_compute. repeat split; reflexivity.
Defined.

Lemma disconnect_keeps_session_witness :
  let sys := Sample.after (Sample.toConnectDestination Sample.D) in
  fire Base58.PublicKey_throws sys (WalletChanged Sample.disconnected Sample.fetched)
  = ({| component := component sys; wallet := Sample.disconnected |}, [])
  /\ fst (fire Base58.PublicKey_throws sys ClickSwitchWallet) = sys.
Proof.
  apply (disconnect_keeps_session Base58.PublicKey_throws
           (Sample.after (Sample.toConnectDestination Sample.D))
           Sample.disconnected Sample.fetched).
  - reflexivity.
  - vm_compute. left. reflexivity.
Defined.

Lemma fetchProfiles_suspended_witness :
  let c := component (Sample.after Sample.toSignDestination) in
  let c0 := component (Sample.after (Sample.typed Sample.D)) in
  (step (transferState c) = sign_destination
   /\ fetchProfiles Base58.PublicKey_throws (Sample.walletOf Sample.D) Sample.nothingFound c
      = (c, []))
  /\ (step (transferState c0) = enter_destination
      /\ exists t,
           snd (fetchProfiles Base58.PublicKey_throws (Sample.walletOf Sample.A)
                  Sample.nothingFound c0)
           = CallGetAccountInfo Sample.programId :: t).
Proof.
  intros c c0. split; (split; [reflexivity |]).
  - apply (fetchProfiles_suspended Base58.PublicKey_throws).
    vm_compute. right. left. reflexivity.
  - apply (fetchProfiles_suspended Base58.PublicKey_throws
             (Sample.walletOf Sample.A) Sample.nothingFound c0) with (me := Sample.A).
    + vm_compute. right. left. reflexivity.
    + reflexivity.
    + reflexivity.
Defined.

(** C9 as stated fails: in [sign_current] a session exists, yet a fetch
    reads the network and replaces the profile list. *)
Lemma fetch_during_session_counterexample :
  let c := component (Sample.after (Sample.typed Sample.D ++ [ClickContinue])) in
  let r := fetchProfiles Base58.PublicKey_throws (Sample.walletOf Sample.A)
             Sample.nothingFound c in
  step (transferState c) = sign_current
  /\ snd r = [ CallGetAccountInfo Sample.programId;
               CallGetProgramAccounts Sample.programId;
               CallReadAllFromRPC Sample.programId Sample.A ]
  /\ profiles c = [Sample.profile]
  /\ profiles (fst r) = [].
Proof. vm_compute. repeat split; reflexivity. Qed.

Lemma destination_submit_validation_witness :
  let sys := Sample.after (Sample.typed Sample.D) in
  let r := dispatch Base58.PublicKey_throws sys ClickContinue in
  snd r = []
  /\ transferState (component (fst r))
     = with_error None (with_step sign_current (transferState (component sys))).
Proof.
  intros sys r. subst r.
  destruct (destination_submit_validation Base58.PublicKey_throws sys eq_refl)
    as [Hcalls [(_ & _ & Hadv) | (Hbad & _)]].
  - split; [exact Hcalls | exact Hadv].
  - exfalso. destruct Hbad as [Hbad | Hbad].
    + apply Hbad. vm_compute. reflexivity.
    + vm_compute in Hbad. discriminate Hbad.
Defined.

(** C3 as stated fails: the wallet changes to [C] while the modal is at
    [enter_destination]; the original address [A] is then accepted as
    destination. *)
Lemma destination_equal_to_original_counterexample :
  let sys := Sample.after (Sample.opened
                            ++ [ WalletChanged (Sample.walletOf Sample.C) Sample.fetched;
                                 ChangeDestination Sample.A ]) in
  let s := transferState (component sys) in
  let s' := transferState (component (fst (fire Base58.PublicKey_throws sys ClickContinue))) in
  step s = enter_destination
  /\ offered sys ClickContinue = true
  /\ Base58.PublicKey_throws (JS.trim (destinationPubkey s)) = None
  /\ JS.trim (destinationPubkey s) = originalAuthPubkey s
  /\ step s' = sign_current
  /\ error s' = None.
Proof. vm_compute. repeat split; reflexivity. Qed.

Lemma untrimmed_destination_is_stored_witness :
  let input := (" " ++ Sample.D ++ " ")%string in
  let w := Sample.walletOf Sample.A in
  let c1 := handleDestinationSubmit Base58.PublicKey_throws w
              (component (Sample.after (Sample.typed input))) in
  step (transferState c1) = sign_current
  /\ destinationPubkey (transferState c1) = input
  /\ handleSignWithCurrentWallet Base58.PublicKey_throws w (Sample.firstSigned 1000) c1
     = (setProcessing false
          (setTransferState (with_error (Some "Failed to sign: Non-base58 character")) c1),
        [])
  /\ Sample.D <> input.
Proof.
  intros input w c1.
  assert (H1 : destinationPubkey
                 (transferState (component (Sample.after (Sample.typed input)))) = input)
    by reflexivity.
  assert (H2 : JS.trim input <> input) by (vm_compute; discriminate).
  assert (H3 : Base58.PublicKey_throws (JS.trim input) = None) by reflexivity.
  assert (H4 : publicKey w <> Some (JS.trim input)) by (vm_compute; discriminate).
  destruct (untrimmed_destination_is_stored Base58.PublicKey_throws w _ input H1 H2 H3 H4)
    as (E1 & E2 & E3).
  fold c1 in E1, E2, E3.
  destruct (E3 c1 w Sample.A E2 eq_refl) as [Eparse _].
  destruct (E3 c1 (Sample.walletOf Sample.D) Sample.D E2 eq_refl) as [_ Ecmp].
  destruct (Ecmp (valid_address_trimmed Sample.D eq_refl)) as [Ene _].
  split; [rewrite E1; reflexivity |].
  split; [exact E2 |].
  split; [| exact Ene].
  apply (Eparse (Sample.firstSigned 1000) "Non-base58 character" Sample.profile);
    reflexivity.
Defined.

(** C10 as stated fails: the typed text is the connected wallet's own
    address with a leading blank; its trimmed form is a valid address,
    yet validation refuses it and the session stays in
    [enter_destination]. *)
Lemma untrimmed_own_address_counterexample :
  let input := (" " ++ Sample.A)%string in
  let sys := Sample.after (Sample.typed input) in
  let s' := transferState (component (fst (fire Base58.PublicKey_throws sys ClickContinue))) in
  publicKey (wallet sys) = Some Sample.A
  /\ JS.trim input <> input
  /\ Base58.PublicKey_throws (JS.trim input) = None
  /\ offered sys ClickContinue = true
  /\ step s' = enter_destination
  /\ error s' = Some "Destination cannot be the same as current wallet".
Proof.
  vm_compute. repeat split; try reflexivity. discriminate.
Qed.




Lemma submission_carries_both_signatures_witness :
  let sys := Sample.after Sample.toSignDestination in
  let e := ClickSignDestination Sample.secondSigned in
  In (CallSendRawTransaction Sample.sentTx) (snd (fire Base58.PublicKey_throws sys e))
  /\ exists stored d p a,
       partiallySignedTx (transferState (component sys)) = Some stored
       /\ Sample.sentTx = addSignature d stored
       /\ publicKey (wallet sys) = Some d
       /\ d = destinationPubkey (transferState (component sys))
       /\ feePayer Sample.sentTx = Some d
       /\ selectedProfile (component sys) = Some p /\ holdsAuth p a
       /\ In a (signatures Sample.sentTx) /\ In d (signatures Sample.sentTx).
Proof.
  intros sys e.
  assert (Hin : In (CallSendRawTransaction Sample.sentTx)
                   (snd (fire Base58.PublicKey_throws sys e)))
    by (vm_compute; right; left; reflexivity).
  split; [exact Hin |].
  assert (Hreach : reachable Base58.PublicKey_throws sys).
  { apply reachable_run. apply reachable_initial. }
  destruct (submission_carries_both_signatures Base58.PublicKey_throws sys Hreach)
    as [_ Hsend].
  destruct (Hsend e Sample.sentTx Hin) as (_ & _ & Hboth).
  exact Hboth.
Defined.

Lemma delete_only_for_non_auth_keys_witness :
  let sys := Sample.after [FetchEffect Sample.fetched] in
  exists pi row o p pk,
    ClickDelete 0 1 Sample.removed = ClickDelete pi row o
    /\ nth_error (profiles (component sys)) pi = Some p
    /\ nth_error (profileKeys p) row = Some pk
    /\ auth (permissions pk) = false
    /\ Sample.programId = profile_key p /\ 1 = Z.of_nat row /\ 2 = 1 + 1.
Proof.
  apply (delete_only_for_non_auth_keys Base58.PublicKey_throws
           (Sample.after [FetchEffect Sample.fetched])
           (ClickDelete 0 1 Sample.removed) Sample.programId 1 2).
  vm_compute. left. reflexivity.
Defined.

(** The scenario of the specification: destination [D] entered while
    connected as [A]; [A] signs at time 1000; 41 seconds later the
    session still waits; [D] connects and the session advances by
    itself; at 43 seconds it is forced to [expired]; restart returns to
    [sign_current] with the destination kept and the stored transaction
    gone. *)
Example specification_scenario :
  let s1 := Sample.after (Sample.typed Sample.D ++ [ClickContinue]) in
  let s2 := Sample.after (Sample.toConnectDestination Sample.D ++ [TimerTick 42000]) in
  let s3 := Sample.after (Sample.toSignDestination) in
  let s4 := Sample.after (Sample.toSignDestination ++ [TimerTick 44000]) in
  let s5 := Sample.after (Sample.toSignDestination ++ [TimerTick 44000; ClickRestart]) in
  step (transferState (component s1)) = sign_current
  /\ (step (transferState (component s2)) = connect_destination
      /\ signedAt (transferState (component s2)) = Some 1000
      /\ partiallySignedTx (transferState (component s2)) <> None
      /\ timeRemaining (component s2) = Some 1)
  /\ step (transferState (component s3)) = sign_destination
  /\ step (transferState (component s4)) = expired
  /\ (step (transferState (component s5)) = sign_current
      /\ destinationPubkey (transferState (component s5)) = Sample.D
      /\ partiallySignedTx (transferState (component s5)) = None).
Proof. vm_compute. repeat split; try reflexivity. discriminate. Qed.

(** * Further properties of the code *)

(** ** Trimming *)

Lemma trimStart_head (s : string) :
  JS.trimStart s = EmptyString
  \/ exists c s', JS.trimStart s = String c s' /\ JS.isWhiteSpace c = false.
Proof.
  induction s as [| c s IH]; simpl; [left; reflexivity |].
  destruct (JS.isWhiteSpace c) eqn:E; [exact IH |].
  right. exists c, s. split; [reflexivity | exact E].
Qed.

Lemma trimEnd_head (c : ascii) (s : string) :
  JS.isWhiteSpace c = false -> exists s', JS.trimEnd (String c s) = String c s'.
Proof.
  intro H. simpl. destruct (JS.trimEnd s); [rewrite H |]; eexists; reflexivity.
Qed.

Lemma trimEnd_idempotent (s : string) : JS.trimEnd (JS.trimEnd s) = JS.trimEnd s.
Proof.
  induction s as [| c s IH]; [reflexivity |].
  cbn [JS.trimEnd]. destruct (JS.trimEnd s) as [| d t] eqn:E.
  - destruct (JS.isWhiteSpace c) eqn:W; [reflexivity |].
    cbn [JS.trimEnd]. rewrite W. reflexivity.
  - cbn [JS.trimEnd] in *. rewrite IH. reflexivity.
Qed.

Lemma trim_idempotent (s : string) : JS.trim (JS.trim s) = JS.trim s.
Proof.
  unfold JS.trim.
  destruct (trimStart_head s) as [E | (c & s' & E & W)]; rewrite E.
  - reflexivity.
  - destruct (trimEnd_head c s' W) as [u Hu]. rewrite Hu.
    cbn [JS.trimStart]. rewrite W. rewrite <- Hu. apply trimEnd_idempotent.
Qed.

(** ** The RPC endpoint setting *)

Lemma getItem_removeItem (k k' : string) (ls : Rpc.Storage) :
  Rpc.getItem k' (Rpc.removeItem k ls)
  = if (k =? k')%string then None else Rpc.getItem k' ls.
Proof.
  induction ls as [| [a v] ls IH]; simpl.
  - destruct (k =? k')%string; reflexivity.
  - destruct (String.eqb_spec a k) as [-> | Hak].
    + rewrite IH. destruct (String.eqb_spec k k') as [_ | _]; reflexivity.
    + simpl. rewrite IH.
      destruct (String.eqb_spec a k') as [-> | _]; [| reflexivity].
      destruct (String.eqb_spec k k') as [-> | _]; [contradiction | reflexivity].
Qed.

Lemma getItem_setItem (k v k' : string) (ls : Rpc.Storage) :
  Rpc.getItem k' (Rpc.setItem k v ls)
  = if (k =? k')%string then Some v else Rpc.getItem k' ls.
Proof.
  unfold Rpc.setItem. simpl. rewrite getItem_removeItem.
  destruct (k =? k')%string; reflexivity.
Qed.

(** X1. Saving an input that is not blank stores its trimmed text,
    closes the dialog and touches no other key of the storage; the
    stored text is free of surrounding white space, and a later mount
    of the provider on that storage comes up with exactly this
    endpoint, whatever the default is. *)
Theorem save_survives_reload (st : Rpc.State) (defaultEndpoint : string) :
  JS.trim (Rpc.inputValue st) <> "" ->
  let url := JS.trim (Rpc.inputValue st) in
  let st' := Rpc.handleSave st in
  Rpc.rpcUrl st' = url
  /\ Rpc.isOpen st' = false
  /\ JS.trim url = url
  /\ Rpc.rpcUrl (Rpc.mount defaultEndpoint (Rpc.localStorage st')) = url
  /\ Rpc.isCustom defaultEndpoint st' = negb (url =? defaultEndpoint)%string
  /\ forall k, k <> Rpc.storageKey ->
               Rpc.getItem k (Rpc.localStorage st') = Rpc.getItem k (Rpc.localStorage st).
Proof.
  intros Hne url st'. subst st'. unfold Rpc.handleSave. fold url.
  assert (Ht : JS.truthyString (Some url) = true).
  { simpl. destruct (String.eqb_spec url ""); [contradiction | reflexivity]. }
  rewrite Ht. cbn [Rpc.rpcUrl Rpc.isOpen Rpc.localStorage Rpc.setIsOpen Rpc.setRpcUrl].
  repeat split.
  - apply trim_idempotent.
  - unfold Rpc.mount. rewrite getItem_setItem, String.eqb_refl.
    unfold JS.orNull. rewrite Ht. reflexivity.
  - intros k Hk. rewrite getItem_setItem.
    destruct (String.eqb_spec Rpc.storageKey k) as [E | _]; [| reflexivity].
    symmetry in E. contradiction.
Qed.

(** X2. Saving a blank input (empty, or white space only) does
    nothing: the endpoint, the storage and the open dialog stay as they
    are. *)
Theorem save_blank_is_ignored (st : Rpc.State) :
  JS.trim (Rpc.inputValue st) = "" -> Rpc.handleSave st = st.
Proof.
  intro H. unfold Rpc.handleSave. rewrite H. reflexivity.
Qed.

(** X3. Resetting returns to the default endpoint at once and for
    later mounts: the stored key is gone, the other keys are untouched,
    the endpoint no longer counts as custom and the dialog is closed. *)
Theorem reset_restores_default (st : Rpc.State) (defaultEndpoint : string) :
  let st' := Rpc.handleReset defaultEndpoint st in
  Rpc.rpcUrl st' = defaultEndpoint
  /\ Rpc.isCustom defaultEndpoint st' = false
  /\ Rpc.isOpen st' = false
  /\ Rpc.getItem Rpc.storageKey (Rpc.localStorage st') = None
  /\ Rpc.rpcUrl (Rpc.mount defaultEndpoint (Rpc.localStorage st')) = defaultEndpoint
  /\ forall k, k <> Rpc.storageKey ->
               Rpc.getItem k (Rpc.localStorage st') = Rpc.getItem k (Rpc.localStorage st).
Proof.
  intro st'. subst st'.
  cbn [Rpc.handleReset Rpc.resetRpcUrl Rpc.setIsOpen Rpc.rpcUrl Rpc.isOpen Rpc.localStorage].
  assert (Hg : Rpc.getItem Rpc.storageKey
                 (Rpc.removeItem Rpc.storageKey (Rpc.localStorage st)) = None).
  { rewrite getItem_removeItem, String.eqb_refl. reflexivity. }
  repeat split.
  - unfold Rpc.isCustom. cbn [Rpc.rpcUrl]. rewrite String.eqb_refl. reflexivity.
  - exact Hg.
  - unfold Rpc.mount. rewrite Hg. reflexivity.
  - intros k Hk. rewrite getItem_removeItem.
    destruct (String.eqb_spec Rpc.storageKey k) as [E | _]; [| reflexivity].
    symmetry in E. contradiction.
Qed.

(** X4. A mount never comes up with an empty endpoint unless the
    default itself is empty: an empty stored value counts as absent, and
    then, as when nothing is stored, the default is taken and the
    endpoint is not custom. *)
Theorem mount_falls_back_to_default (defaultEndpoint : string) (ls : Rpc.Storage) :
  let st := Rpc.mount defaultEndpoint ls in
  (Rpc.getItem Rpc.storageKey ls = None \/ Rpc.getItem Rpc.storageKey ls = Some "" ->
   Rpc.rpcUrl st = defaultEndpoint /\ Rpc.isCustom defaultEndpoint st = false)
  /\ (forall u, Rpc.getItem Rpc.storageKey ls = Some u -> u <> "" -> Rpc.rpcUrl st = u)
  /\ (defaultEndpoint <> "" -> Rpc.rpcUrl st <> "")
  /\ Rpc.inputValue st = Rpc.rpcUrl st /\ Rpc.isOpen st = false.
Proof.
  intro st. subst st. unfold Rpc.mount, Rpc.isCustom. cbn [Rpc.rpcUrl Rpc.inputValue Rpc.isOpen].
  repeat split.
  - destruct H as [-> | ->]; reflexivity.
  - destruct H as [-> | ->]; simpl; rewrite String.eqb_refl; reflexivity.
  - intros u Hu Hne. rewrite Hu. unfold JS.orNull. simpl.
    destruct (String.eqb_spec u ""); [contradiction | reflexivity].
  - intro Hd. destruct (Rpc.getItem Rpc.storageKey ls) as [u |]; [| exact Hd].
    unfold JS.orNull. simpl.
    destruct (String.eqb_spec u ""); simpl; assumption.
Qed.

Section MoreProperties.

Variable PublicKey_throws : string -> option string.

(** ** Fetching the profiles *)

Lemma okProfiles_In (rs : list ReadResult) (p : PlayerProfile) :
  In p (okProfiles rs) <-> In (ReadOk p) rs.
Proof.
  unfold okProfiles. rewrite in_flat_map. split.
  - intros (r & Hr & Hp). destruct r as [q |]; simpl in Hp; [| contradiction].
    destruct Hp as [<- | []]. exact Hr.
  - intro H. exists (ReadOk p). split; [exact H | left; reflexivity].
Qed.

(** X5. A fetch that goes ahead (no transfer in progress, a wallet
    connected, a program id that parses) never leaves [loading] set.
    When the program account is missing, the list is emptied after that
    single read and the message names the program; when a read throws,
    the list is left as it was and the message is [Error: ] followed by
    the exception's text, and no later read is made. *)
Theorem fetchProfiles_failures
  (w : Wallet) (o : FetchOutcomes) (c : Component) (me : string) :
  isTransferInProgress (transferState c) = false ->
  publicKey w = Some me ->
  programBuilt PublicKey_throws c = true ->
  let c' := fst (fetchProfiles PublicKey_throws w o c) in
  let t := snd (fetchProfiles PublicKey_throws w o c) in
  loading c' = false
  /\ (accountInfo o = Ok false ->
      profiles c' = []
      /\ debugInfo c' = ("Program " ++ programId c
                         ++ " does not exist on this network. Try a different program ID.")%string
      /\ t = [CallGetAccountInfo (programId c)])
  /\ (forall msg, accountInfo o = Throw msg ->
      profiles c' = profiles c /\ debugInfo c' = ("Error: " ++ msg)%string
      /\ t = [CallGetAccountInfo (programId c)])
  /\ (forall msg, accountInfo o = Ok true -> programAccounts o = Throw msg ->
      profiles c' = profiles c /\ debugInfo c' = ("Error: " ++ msg)%string
      /\ t = [CallGetAccountInfo (programId c); CallGetProgramAccounts (programId c)])
  /\ (forall msg n, accountInfo o = Ok true -> programAccounts o = Ok n ->
      readAll o = Throw msg ->
      profiles c' = profiles c /\ debugInfo c' = ("Error: " ++ msg)%string).
Proof.
  intros Hout Hw Hp c' t. subst c' t.
  unfold fetchProfiles. rewrite Hout, Hw, Hp.
  destruct o as [ai pa ra]. cbn [accountInfo programAccounts readAll].
  split; [destruct ai as [[|] |], pa, ra; reflexivity |].
  split; [intros ->; cbn; auto |].
  split; [intros msg ->; cbn; auto |].
  split; [intros msg -> ->; cbn; auto |].
  intros msg n -> -> ->. cbn. auto.
Qed.

(** X6. When all three reads succeed, the profile list becomes the
    successfully decoded results, in order, the failed ones dropped;
    the reads are made in the order program account, account count,
    filtered profiles, the filter being the connected wallet's address;
    and with no match the message starts with [Found 0 profiles.], not
    with the missing-program text. *)
Theorem fetchProfiles_success
  (w : Wallet) (o : FetchOutcomes) (c : Component) (me : string)
  (n : nat) (rs : list ReadResult) :
  isTransferInProgress (transferState c) = false ->
  publicKey w = Some me ->
  programBuilt PublicKey_throws c = true ->
  accountInfo o = Ok true -> programAccounts o = Ok n -> readAll o = Ok rs ->
  let c' := fst (fetchProfiles PublicKey_throws w o c) in
  let t := snd (fetchProfiles PublicKey_throws w o c) in
  profiles c' = okProfiles rs
  /\ (forall p, In p (profiles c') <-> In (ReadOk p) rs)
  /\ (List.length (profiles c') <= List.length rs)%nat
  /\ t = [ CallGetAccountInfo (programId c);
           CallGetProgramAccounts (programId c);
           CallReadAllFromRPC (programId c) me ]
  /\ (okProfiles rs = [] -> String.prefix "Found 0 profiles." (debugInfo c') = true)
  /\ loading c' = false.
Proof.
  intros Hout Hw Hp Ha Hn Hr c' t. subst c' t.
  unfold fetchProfiles. rewrite Hout, Hw, Hp.
  destruct o as [ai pa ra]. cbn [accountInfo programAccounts readAll] in *. subst.
  cbn [bind await ret fst snd negb app].
  cbn [fst snd profiles setLoading setProfiles setDebugInfo debugInfo loading].
  split; [reflexivity |].
  split; [intro p; apply okProfiles_In |].
  split.
  { unfold okProfiles. clear. induction rs as [| [p |] rs IH]; simpl; lia. }
  split; [reflexivity |].
  split; [| reflexivity].
  intro He. rewrite He. cbn [List.length Nat.eqb andb].
  destruct (0 <? n)%nat; reflexivity.
Qed.

(** ** Deleting a key *)

(** X7. With a wallet that can sign connected, the delete handler
    always ends with [processing] reset and never touches the transfer
    session.  The transaction it hands to the wallet is unsigned, built
    from the instructions the SDK returned, with the connected wallet as
    fee payer.  The profile list is re-read only after the deletion was
    confirmed; when any step fails (the SDK, an empty instruction list,
    the blockhash, the submission or the confirmation) the user is
    alerted, no read is made and the list stays as it was. *)
Theorem handleDeleteKey_outcomes
  (w : Wallet) (o : DeleteOutcomes) (p : PlayerProfile) (row : nat)
  (c : Component) (me : string) :
  publicKey w = Some me -> signTransaction w = true ->
  let c' := fst (handleDeleteKey PublicKey_throws w o p row c) in
  let t := snd (handleDeleteKey PublicKey_throws w o p row c) in
  let confirmed :=
    exists ix ixs bh sg,
      removeKeysIxs o = Ok (ix :: ixs) /\ deleteBlockhash o = Ok bh
      /\ sendTransaction o = Ok sg /\ deleteConfirmed o = Ok tt in
  processing c' = false
  /\ transferState c' = transferState c
  /\ (forall w' tx, In (CallSendTransaction w' tx) t ->
        w' = me /\ feePayer tx = Some me /\ signatures tx = []
        /\ removeKeysIxs o = Ok (instructions tx))
  /\ (existsb isRead t = true -> confirmed)
  /\ (confirmed ->
      c' = setProcessing false
             (fst (fetchProfiles PublicKey_throws w (refetch o) (setProcessing true c)))
      /\ ~ In (CallAlert "Failed to delete key. See console.") t)
  /\ (~ confirmed ->
      c' = setProcessing false c
      /\ In (CallAlert "Failed to delete key. See console.") t
      /\ existsb isRead t = false).
Proof.
  intros Hw Hs c' t confirmed. subst c' t confirmed.
  pose proof (fetchProfiles_frame PublicKey_throws w (refetch o) (setProcessing true c))
    as (F1 & F2 & F3).
  pose proof (fetchProfiles_reads PublicKey_throws w (refetch o) (setProcessing true c))
    as Hreads.
  unfold handleDeleteKey. rewrite Hw, Hs.
  destruct o as [[[| ix ixs] | m1] [bh | m2] [sg | m3] [[] | m4] fo];
    cbn [removeKeysIxs deleteBlockhash sendTransaction deleteConfirmed refetch] in *;
    try (split; [reflexivity |]; split; [reflexivity |];
         split;
         [ intros w' tx H; cbn in H;
           repeat (destruct H as [H | H];
                   [try discriminate H; injection H as <- <-; cbn; auto |]);
           contradiction |];
         split; [cbn; intro H; discriminate H |];
         split; [intros (? & ? & ? & ? & H1 & H2 & H3 & H4); discriminate |];
         intros _; split; [destruct c; reflexivity |];
         split; [cbn; repeat ((left; reflexivity) || right) | reflexivity]).
  cbn.
  destruct (fetchProfiles PublicKey_throws w fo (setProcessing true c)) as [c1 t1].
  cbn in *.
  split; [reflexivity |]. split; [exact F1 |].
  split.
  { intros w' tx H. destruct H as [H | [H | [H | [H | H]]]]; try discriminate H.
    - injection H as <- <-. cbn. auto.
    - rewrite forallb_forall in Hreads. specialize (Hreads _ H). discriminate Hreads. }
  split; [intros _; exists ix, ixs, bh, sg; auto |].
  split.
  { intros _. split; [reflexivity |].
    intro H. destruct H as [H | [H | [H | [H | H]]]]; try discriminate H.
    rewrite forallb_forall in Hreads. specialize (Hreads _ H). discriminate Hreads. }
  intro H. exfalso. apply H. exists ix, ixs, bh, sg. auto.
Qed.

(** ** The first signature *)

Lemma findIndex_spec {A} (f : A -> bool) (l : list A) (i : nat) :
  findIndex f l = Some i ->
  exists x, nth_error l i = Some x /\ f x = true
            /\ forall j y, (j < i)%nat -> nth_error l j = Some y -> f y = false.
Proof.
  revert i. induction l as [| a l IH]; intros i H; simpl in H; [discriminate H |].
  destruct (f a) eqn:Fa.
  - injection H as <-. exists a. repeat split; auto. intros j y Hj. lia.
  - destruct (findIndex f l) as [i' |]; [| discriminate H].
    injection H as <-. destruct (IH i' eq_refl) as (x & Hx & Fx & Hbefore).
    exists x. repeat split; auto.
    intros [| j] y Hj Hy; simpl in Hy.
    + injection Hy as <-. exact Fa.
    + apply (Hbefore j); [lia | exact Hy].
Qed.


(** X8. Every adjust-auth request of the first-signature handler
    addresses the selected profile, with its threshold, and replaces one
    slot [[i, i + 1)]: slot [i] holds the connected wallet's own key with
    the auth flag, and it is the first such slot.  The new key is the
    session's destination text as stored, which the key constructor
    accepted. *)
Theorem adjustAuth_replaces_own_auth_slot
  (w : Wallet) (o : SignCurrentOutcomes) (c : Component)
  (pr cur new scope : string) (first last thr : Z) :
  In (CallAdjustAuth pr cur new scope first last thr)
     (snd (handleSignWithCurrentWallet PublicKey_throws w o c)) ->
  exists p i k,
    publicKey w = Some cur /\ selectedProfile c = Some p
    /\ pr = profile_key p /\ thr = keyThreshold p /\ scope = programId c
    /\ new = destinationPubkey (transferState c) /\ PublicKey_throws new = None
    /\ first = Z.of_nat i /\ last = first + 1
    /\ nth_error (profileKeys p) i = Some k
    /\ key k = cur /\ auth (permissions k) = true
    /\ forall j k', (j < i)%nat -> nth_error (profileKeys p) j = Some k' ->
                    isAuthKeyOf cur k' = false.
Proof.
  unfold handleSignWithCurrentWallet, newPublicKey.
  destruct (publicKey w) as [me |]; [| simpl; tauto].
  destruct (signTransaction w); [| simpl; tauto].
  destruct (selectedProfile c) as [p |]; [| simpl; tauto].
  destruct (PublicKey_throws (destinationPubkey (transferState c))) eqn:Hk;
    [cbn; tauto |].
  destruct (findIndex (isAuthKeyOf me) (profileKeys p)) as [i |] eqn:Hi; [| cbn; tauto].
  destruct (findIndex_spec _ _ _ Hi) as (k & Hn & Hf & Hbefore).
  unfold isAuthKeyOf in Hf. apply andb_true_iff in Hf. destruct Hf as [Hkey Hauth].
  apply String.eqb_eq in Hkey.
  intro H.
  assert (E : CallAdjustAuth (profile_key p) me (destinationPubkey (transferState c))
                (programId c) (Z.of_nat i) (Z.of_nat i + 1) (keyThreshold p)
              = CallAdjustAuth pr cur new scope first last thr).
  { destruct o as [[[| ix ixs] |] [bh |] [[] |] now]; cbn in H;
      repeat (destruct H as [H | H]; [try discriminate H; exact H |]); contradiction. }
  injection E as <- <- <- <- <- <- <-.
  exists p, i, k. repeat split; auto.
Qed.

Lemma markSigner_pubkeys (d : string) (ks : list AccountMeta) :
  map pubkey (markSigner d ks) = map pubkey ks
  /\ map isWritable (markSigner d ks) = map isWritable ks.
Proof.
  induction ks as [| k ks [IH1 IH2]]; simpl; [auto |].
  destruct (pubkey k =? d)%string; simpl; [auto |].
  rewrite IH1, IH2. auto.
Qed.

Lemma markSigner_find (d : string) (ks : list AccountMeta) (k : AccountMeta) :
  find (fun a => (pubkey a =? d)%string) (markSigner d ks) = Some k ->
  isSigner k = true.
Proof.
  induction ks as [| a ks IH]; simpl; [discriminate |].
  destruct (pubkey a =? d)%string eqn:E; simpl; rewrite E.
  - intros [= <-]. reflexivity.
  - exact IH.
Qed.

(** X9. The transaction the first wallet is asked to sign is unsigned,
    carries a blockhash, and has the session's destination as fee payer.
    Its instructions are those the SDK returned, with the same account
    addresses, writability and data, and in each instruction the first
    account bearing the destination's address marked as a signer. *)
Theorem first_signature_request
  (w : Wallet) (o : SignCurrentOutcomes) (c : Component) (me : string)
  (tx : Transaction) :
  In (CallSignTransaction me tx)
     (snd (handleSignWithCurrentWallet PublicKey_throws w o c)) ->
  let d := destinationPubkey (transferState c) in
  publicKey w = Some me
  /\ feePayer tx = Some d /\ signatures tx = []
  /\ (exists bh, latestBlockhash o = Ok bh /\ recentBlockhash tx = Some bh)
  /\ exists ixs,
       adjustAuthIxs o = Ok ixs /\ ixs <> []
       /\ instructions tx = map (markDestination d) ixs
       /\ map data (instructions tx) = map data ixs
       /\ map (fun ix => map pubkey (keys ix)) (instructions tx)
          = map (fun ix => map pubkey (keys ix)) ixs
       /\ map (fun ix => map isWritable (keys ix)) (instructions tx)
          = map (fun ix => map isWritable (keys ix)) ixs
       /\ forall ix, In ix (instructions tx) ->
            forall k, find (fun a => (pubkey a =? d)%string) (keys ix) = Some k ->
                      isSigner k = true.
Proof.
  unfold handleSignWithCurrentWallet, newPublicKey.
  destruct (publicKey w) as [me' |]; [| simpl; tauto].
  destruct (signTransaction w); [| simpl; tauto].
  destruct (selectedProfile c) as [p |]; [| simpl; tauto].
  destruct (PublicKey_throws (destinationPubkey (transferState c))); [cbn; tauto |].
  destruct (findIndex (isAuthKeyOf me') (profileKeys p)) as [i |]; [| cbn; tauto].
  intros H. set (d := destinationPubkey (transferState c)) in *.
  destruct o as [[[| ix ixs] | m1] [bh | m2] sg now];
    try (cbn in H; repeat (destruct H as [H | H]; [discriminate H |]); contradiction).
  assert (E : CallSignTransaction me'
                (prepare bh d
                   {| instructions := map (markDestination d) (ix :: ixs);
                      recentBlockhash := None; feePayer := None; signatures := [] |})
              = CallSignTransaction me tx).
  { destruct sg as [[] |]; cbn in H;
      repeat (destruct H as [H | H]; [try discriminate H; exact H |]); contradiction. }
  injection E as <- <-.
  cbn [adjustAuthIxs latestBlockhash prepare feePayer signatures recentBlockhash instructions].
  split; [reflexivity |]. split; [reflexivity |]. split; [reflexivity |].
  split; [exists bh; auto |].
  exists (ix :: ixs).
  split; [reflexivity |]. split; [discriminate |]. split; [reflexivity |].
  change (markDestination d ix :: map (markDestination d) ixs)
    with (map (markDestination d) (ix :: ixs)).
  split; [rewrite map_map; reflexivity |].
  split.
  { rewrite map_map. apply map_ext. intro a. apply markSigner_pubkeys. }
  split.
  { rewrite map_map. apply map_ext. intro a. apply markSigner_pubkeys. }
  intros ix' Hix k Hk. apply in_map_iff in Hix. destruct Hix as (ix0 & <- & _).
  eapply markSigner_find. exact Hk.
Qed.

(** X10. A first-signature attempt that fails changes nothing but the
    error, which becomes [Failed to sign: ] followed by the reason, and
    it submits nothing; the session keeps its step, destination and
    stored data, so the action can be repeated.  The reason is the key
    constructor's message for a stored destination it rejects, or
    [Current wallet is not an auth key] (in both cases before any
    call), or [No instructions], or the text thrown by the SDK, the
    blockhash request or the wallet.  Success needs all three awaited
    calls to succeed and stamps the session with the handler's clock
    reading. *)
Theorem first_signature_outcomes
  (w : Wallet) (o : SignCurrentOutcomes) (c : Component) (me : string)
  (p : PlayerProfile) :
  publicKey w = Some me -> signTransaction w = true -> selectedProfile c = Some p ->
  let c' := fst (handleSignWithCurrentWallet PublicKey_throws w o c) in
  let t := snd (handleSignWithCurrentWallet PublicKey_throws w o c) in
  let s := transferState c in
  let s' := transferState c' in
  processing c' = false
  /\ ((exists msg,
         s' = with_error (Some ("Failed to sign: " ++ msg)%string) s
         /\ existsb isSubmit t = false
         /\ ((PublicKey_throws (destinationPubkey s) = Some msg /\ t = [])
             \/ (findIndex (isAuthKeyOf me) (profileKeys p) = None
                 /\ msg = "Current wallet is not an auth key" /\ t = [])
             \/ adjustAuthIxs o = Throw msg
             \/ (adjustAuthIxs o = Ok [] /\ msg = "No instructions")
             \/ latestBlockhash o = Throw msg
             \/ currentSigned o = Throw msg))
      \/ (exists stored,
            s' = with_error None (with_signedAt (Some (dateNow o))
                   (with_partiallySignedTx (Some stored) (with_step connect_destination s)))
            /\ (exists ixs, adjustAuthIxs o = Ok ixs)
            /\ (exists bh, latestBlockhash o = Ok bh)
            /\ currentSigned o = Ok tt
            /\ existsb isSubmit t = false)).
Proof.
  intros Hw Hs Hp c' t s s'. subst c' t s s'.
  unfold handleSignWithCurrentWallet, newPublicKey. rewrite Hw, Hs, Hp.
  destruct (PublicKey_throws (destinationPubkey (transferState c))) as [m |] eqn:Hk.
  { cbn. split; [reflexivity |]. left. exists m. auto. }
  destruct (findIndex (isAuthKeyOf me) (profileKeys p)) as [i |] eqn:Hi.
  2:{ cbn. split; [reflexivity |]. left. eexists. split; [reflexivity |]. auto 6. }
  destruct o as [[[| ix ixs] | m1] [bh | m2] [[] | m3] now];
    cbn; (split; [reflexivity |]);
    try (left; eexists; split; [reflexivity |]; split; [reflexivity |]; auto 10; fail).
  right. eexists. split; [reflexivity |]. eauto 10.
Qed.

(** ** The second signature *)

(** X11. The second-signature handler never alters the stored
    transaction, the destination or the time stamp.  Without a wallet
    that can sign, or without a stored transaction, it does nothing at
    all; with a wallet other than the destination it only records the
    request to connect the destination wallet, making no call.  The
    step changes only to [complete], and only when signing, sending,
    the blockhash request and the confirmation all succeeded, the
    confirmation being for the signature the submission returned.  A
    refused signature sends nothing; a failed submission is not
    confirmed. *)
Theorem second_signature_outcomes
  (w : Wallet) (o : SignDestinationOutcomes) (c : Component) :
  let c' := fst (handleSignWithDestinationWallet w o c) in
  let t := snd (handleSignWithDestinationWallet w o c) in
  let s := transferState c in
  let s' := transferState c' in
  (partiallySignedTx s' = partiallySignedTx s
   /\ destinationPubkey s' = destinationPubkey s
   /\ signedAt s' = signedAt s)
  /\ (publicKey w = None \/ signTransaction w = false \/ partiallySignedTx s = None ->
      c' = c /\ t = [])
  /\ (forall me stored,
        publicKey w = Some me -> signTransaction w = true ->
        partiallySignedTx s = Some stored -> me <> destinationPubkey s ->
        s' = with_error (Some "Please connect the destination wallet to continue") s
        /\ t = [])
  /\ (step s' = step s
      \/ (step s' = complete /\ error s' = None
          /\ destinationSigned o = Ok tt
          /\ (exists sg, sendRawTransaction o = Ok sg /\ In (CallConfirmTransaction sg) t)
          /\ (exists bh, confirmBlockhash o = Ok bh)
          /\ confirmTransaction o = Ok tt))
  /\ (forall msg, destinationSigned o = Throw msg -> existsb isSubmit t = false)
  /\ (forall msg, sendRawTransaction o = Throw msg ->
        forall sg, ~ In (CallConfirmTransaction sg) t).
Proof.
  intros c' t s s'. subst c' t s s'.
  unfold handleSignWithDestinationWallet.
  assert (Hguard :
    forall (pk : option string) (cs : bool) (ps : option Transaction),
      pk = None \/ cs = false \/ ps = None ->
      (ps = ps /\ destinationPubkey (transferState c) = destinationPubkey (transferState c)
       /\ signedAt (transferState c) = signedAt (transferState c))
      /\ (pk = None \/ cs = false \/ ps = None -> c = c /\ @nil Call = [])
      /\ (forall me stored,
            pk = Some me -> cs = true -> ps = Some stored ->
            me <> destinationPubkey (transferState c) ->
            transferState c
            = with_error (Some "Please connect the destination wallet to continue")
                (transferState c)
            /\ @nil Call = [])
      /\ (step (transferState c) = step (transferState c)
          \/ (step (transferState c) = complete /\ error (transferState c) = None
              /\ destinationSigned o = Ok tt
              /\ (exists sg, sendRawTransaction o = Ok sg
                              /\ In (CallConfirmTransaction sg) [])
              /\ (exists bh, confirmBlockhash o = Ok bh)
              /\ confirmTransaction o = Ok tt))
      /\ (forall msg, destinationSigned o = Throw msg -> existsb isSubmit [] = false)
      /\ (forall msg, sendRawTransaction o = Throw msg ->
            forall sg, ~ In (CallConfirmTransaction sg) [])).
  { intros pk cs ps Hg.
    split; [auto |]. split; [auto |].
    split; [intros me stored -> -> ->; destruct Hg as [H | [H | H]]; discriminate H |].
    split; [left; reflexivity |].
    split; [reflexivity |]. intros msg _ sg H. exact H. }
  destruct (publicKey w) as [me |] eqn:Hw.
  2:{ apply (Hguard None (signTransaction w) (partiallySignedTx (transferState c))).
      auto. }
  destruct (signTransaction w) eqn:Hs.
  2:{ apply (Hguard (Some me) false (partiallySignedTx (transferState c))). auto. }
  destruct (partiallySignedTx (transferState c)) as [stored |] eqn:Hst.
  2:{ cbn [fst snd]. rewrite Hst. apply (Hguard (Some me) true None). auto. }
  destruct (String.eqb_spec me (destinationPubkey (transferState c))) as [E | Hne].
  2:{ cbn. split; [rewrite Hst; auto |].
      split; [intros [H | [H | H]]; discriminate H |].
      split; [intros; auto |].
      split; [left; reflexivity |].
      split; [reflexivity |]. intros msg _ sg H. exact H. }
  destruct o as [[[] | m1] [sg | m2] [bh | m3] [[] | m4]]; cbn;
    (split; [rewrite Hst; auto |]);
    (split; [intros [H | [H | H]]; discriminate H |]);
    (split; [intros me' stored' [= <-] _ _ Hne; contradiction |]);
    (split;
     [first [ left; reflexivity
            | right;
              split; [reflexivity |]; split; [reflexivity |]; split; [reflexivity |];
              split; [eexists; split; [reflexivity | cbn; auto 6] |];
              split; [eexists; reflexivity | reflexivity] ] |]);
    (split; [intros msg H; first [discriminate H | reflexivity] |]);
    intros msg H; try discriminate H;
    intros sg' Hin;
    repeat (destruct Hin as [Hin | Hin]; [discriminate Hin |]); contradiction.
Qed.

(** ** The wallet watch *)

(** X12. Running the wallet watch again on its own result changes
    nothing more: the effect is idempotent, for any wallet and state. *)
Theorem walletEffect_idempotent (w : Wallet) (c : Component) :
  walletEffect w (walletEffect w c) = walletEffect w c.
Proof.
  unfold walletEffect at 2 3.
  destruct (JS.orNull (publicKey w)) as [a |] eqn:Ha.
  2:{ unfold walletEffect. rewrite Ha. reflexivity. }
  destruct (TransferStep_eqb (step (transferState c)) connect_destination) eqn:Hstep.
  2:{ unfold walletEffect. rewrite Ha, Hstep. reflexivity. }
  destruct (a =? destinationPubkey (transferState c))%string eqn:Hd.
  { apply walletEffect_other_step. cbn. discriminate. }
  destruct (negb (a =? originalAuthPubkey (transferState c))%string) eqn:Ho.
  2:{ unfold walletEffect. rewrite Ha, Hstep, Hd, Ho. reflexivity. }
  unfold walletEffect. rewrite Ha. cbn. rewrite Hstep, Hd, Ho. reflexivity.
Qed.

(** ** What an event does to the session *)

Lemma timerEffect_moves (now : Z) (c : Component) :
  let c' := timerEffect now c in
  let s := transferState c in
  selectedProfile c' = selectedProfile c /\ modalOpen c' = modalOpen c
  /\ (transferState c' = s
      \/ (JS.truthyNumber (signedAt s) = true /\ step s <> complete /\ step s <> expired
          /\ transferState c' = with_error (Some expiredMessage) (with_step expired s))).
Proof.
  unfold timerEffect, updateTimer.
  destruct (timerIdle (transferState c)) eqn:Hidle; [cbn; auto |].
  destruct (signedAt (transferState c)) as [at_ |] eqn:Hat; [| cbn; auto].
  destruct (_ <=? 0); cbn; [| auto].
  split; [reflexivity |]. split; [reflexivity |]. right.
  unfold timerIdle in Hidle. rewrite Hat in Hidle.
  apply orb_false_iff in Hidle. destruct Hidle as [Hidle He].
  apply orb_false_iff in Hidle. destruct Hidle as [Ht Hc].
  apply negb_false_iff in Ht.
  repeat split; auto.
  - intro E. rewrite E in Hc. discriminate Hc.
  - intro E. rewrite E in He. discriminate He.
Qed.

Lemma walletEffect_moves (w : Wallet) (c : Component) :
  let c' := walletEffect w c in
  let s := transferState c in
  selectedProfile c' = selectedProfile c /\ modalOpen c' = modalOpen c
  /\ (transferState c' = s
      \/ (step s = connect_destination
          /\ ((exists msg, transferState c' = with_error msg s)
              \/ transferState c' = with_error None (with_step sign_destination s)))).
Proof.
  unfold walletEffect.
  destruct (JS.orNull (publicKey w)) as [a |]; [| simpl; auto].
  destruct (TransferStep_eqb _ _) eqn:E; [| simpl; auto].
  apply TransferStep_eqb_eq in E.
  destruct (a =? destinationPubkey (transferState c))%string.
  { simpl. split; [reflexivity |]. split; [reflexivity |]. right.
    split; [exact E |]. right. reflexivity. }
  destruct (negb (a =? originalAuthPubkey (transferState c))%string); simpl; auto.
  split; [reflexivity |]. split; [reflexivity |]. right. split; [exact E |].
  left. eexists; reflexivity.
Qed.

Lemma fetchProfiles_modal (w : Wallet) (o : FetchOutcomes) (c : Component) :
  let c' := fst (fetchProfiles PublicKey_throws w o c) in
  modalOpen c' = modalOpen c /\ timeRemaining c' = timeRemaining c
  /\ programId c' = programId c.
Proof.
  unfold fetchProfiles.
  destruct (isTransferInProgress (transferState c)); [simpl; auto |].
  destruct (publicKey w); [| simpl; auto].
  destruct (programBuilt PublicKey_throws c); [| simpl; auto].
  destruct o as [[[|] | ] [|] [|]]; simpl; auto.
Qed.

Lemma handleDeleteKey_modal (w : Wallet) (o : DeleteOutcomes) (p : PlayerProfile)
  (row : nat) (c : Component) :
  let c' := fst (handleDeleteKey PublicKey_throws w o p row c) in
  modalOpen c' = modalOpen c /\ timeRemaining c' = timeRemaining c.
Proof.
  unfold handleDeleteKey.
  destruct (publicKey w) as [me |]; [| simpl; auto].
  destruct (signTransaction w); [| simpl; auto].
  destruct o as [[[| ix ixs] |] [bh |] [sg |] [[] |] fo]; simpl; auto.
  destruct (fetchProfiles_modal w fo (setProcessing true c)) as (H1 & H2 & _).
  destruct (fetchProfiles PublicKey_throws w fo (setProcessing true c)) as [c' t'].
  simpl in *. auto.
Qed.

Lemma handleSignWithCurrentWallet_moves (w : Wallet) (o : SignCurrentOutcomes)
  (c : Component) :
  let r := handleSignWithCurrentWallet PublicKey_throws w o c in
  let s := transferState c in
  selectedProfile (fst r) = selectedProfile c /\ modalOpen (fst r) = modalOpen c
  /\ timeRemaining (fst r) = timeRemaining c
  /\ (transferState (fst r) = s
      \/ (exists msg, transferState (fst r) = with_error msg s)
      \/ (exists me tx,
            In (CallSignTransaction me tx) (snd r) /\ signatures tx = []
            /\ transferState (fst r)
               = with_error None (with_signedAt (Some (dateNow o))
                   (with_partiallySignedTx (Some (addSignature me tx))
                      (with_step connect_destination s))))).
Proof.
  unfold handleSignWithCurrentWallet, newPublicKey.
  destruct (publicKey w) as [me |]; [| simpl; auto].
  destruct (signTransaction w); [| simpl; auto].
  destruct (selectedProfile c) as [p |] eqn:Hsel; [| simpl; auto].
  destruct (PublicKey_throws (destinationPubkey (transferState c)));
    [cbn; repeat (split; [auto |]); right; left; eexists; reflexivity |].
  destruct (findIndex (isAuthKeyOf me) (profileKeys p)) as [i |];
    [| cbn; repeat (split; [auto |]); right; left; eexists; reflexivity].
  destruct o as [[[| ix ixs] |] [bh |] [[] |] now]; cbn;
    repeat (split; [auto |]);
    try (right; left; eexists; reflexivity).
  right; right. eexists me, _. split; [right; right; left; reflexivity |].
  split; reflexivity.
Qed.

Lemma handleSignWithDestinationWallet_modal (w : Wallet) (o : SignDestinationOutcomes)
  (c : Component) :
  let c' := fst (handleSignWithDestinationWallet w o c) in
  modalOpen c' = modalOpen c /\ timeRemaining c' = timeRemaining c.
Proof.
  unfold handleSignWithDestinationWallet.
  destruct (publicKey w) as [me |]; [| simpl; auto].
  destruct (signTransaction w); [| simpl; auto].
  destruct (partiallySignedTx (transferState c)) as [stored |]; [| simpl; auto].
  destruct (negb (me =? destinationPubkey (transferState c))%string); [cbn; auto |].
  destruct o as [[[] |] [sg |] [bh |] [[] |]]; cbn; auto.
Qed.

Lemma rowButton_transfer (w : Wallet) (pk : ProfileKey) :
  rowButton w pk = TransferAuthButton ->
  exists me, publicKey w = Some me /\ isAuthKeyOf me pk = true.
Proof.
  unfold rowButton, isAuthKeyOf.
  destruct (auth (permissions pk)); [| simpl; discriminate].
  destruct (publicKey w) as [me |]; [| simpl; discriminate].
  destruct (key pk =? me)%string eqn:E; [| simpl; discriminate].
  intros _. exists me. rewrite E. auto.
Qed.

Lemma stepIs_eq (c : Component) (v : TransferStep) :
  stepIs c v = true -> step (transferState c) = v.
Proof. apply TransferStep_eqb_eq. Qed.

Ltac offer_parts H :=
  repeat match type of H with
         | (_ && _)%bool = true =>
             let H' := fresh "Hoff" in
             apply andb_true_iff in H; destruct H as [H H']
         end.

Lemma fire_moves (sys : System) (e : Event) :
  moves sys e (snd (fire PublicKey_throws sys e))
    (component (fst (fire PublicKey_throws sys e))).
Proof.
  unfold fire.
  destruct (offered sys e) eqn:Hoff; [| apply moves_kept; reflexivity].
  destruct e as [now | | w' o | o | | v | o | pi row | pi row o | v
                | | | | o | | | o | | ];
    cbn [dispatch offered] in *.
  - (* TimerTick *)
    destruct (timerEffect_moves now (component sys)) as (Hs & Hm & [Ht | (H1 & H2 & H3 & Ht)]);
      cbn; [apply moves_kept | apply moves_expired]; auto.
  - (* WalletObserved *)
    destruct (walletEffect_moves (wallet sys) (component sys))
      as (Hs & Hm & [Ht | (Hc & [[msg Ht] | Ht])]); cbn.
    + apply moves_kept; auto.
    + apply (moves_error _ _ _ _ msg); auto. rewrite Hc. discriminate.
    + apply (moves_connected _ _ _ _ None); auto.
  - (* WalletChanged *)
    destruct (fetchProfiles_frame PublicKey_throws w' o (component sys)) as (F1 & F2 & _).
    destruct (fetchProfiles_modal w' o (component sys)) as (F3 & _).
    destruct (fetchProfiles PublicKey_throws w' o (component sys)) as [c1 t]. cbn in *.
    destruct (walletEffect_moves w' c1) as (Hs & Hm & Ht). cbn in Hs, Hm, Ht.
    rewrite F1 in Ht. rewrite F2 in Hs. rewrite F3 in Hm.
    destruct Ht as [Ht | (Hc & [[msg Ht] | Ht])].
    + apply moves_kept; auto.
    + apply (moves_error _ _ _ _ msg); auto. rewrite Hc. discriminate.
    + apply (moves_connected _ _ _ _ None); auto.
  - (* FetchEffect *)
    destruct (fetchProfiles_frame PublicKey_throws (wallet sys) o (component sys))
      as (F1 & F2 & _).
    destruct (fetchProfiles_modal (wallet sys) o (component sys)) as (F3 & _).
    destruct (fetchProfiles PublicKey_throws (wallet sys) o (component sys)) as [c1 t].
    cbn in *. apply moves_kept; auto.
  - apply moves_kept; reflexivity.
  - apply moves_kept; reflexivity.
  - (* ClickSearchProfiles *)
    destruct (fetchProfiles_frame PublicKey_throws (wallet sys) o (component sys))
      as (F1 & F2 & _).
    destruct (fetchProfiles_modal (wallet sys) o (component sys)) as (F3 & _).
    destruct (fetchProfiles PublicKey_throws (wallet sys) o (component sys)) as [c1 t].
    cbn in *. apply moves_kept; auto.
  - (* ClickTransferAuth *)
    offer_parts Hoff. apply RowButton_eqb_eq in Hoff0.
    unfold rendersTable in Hoff. offer_parts Hoff. apply negb_true_iff in Hoff2.
    unfold buttonAt in Hoff0.
    destruct (nth_error (profiles (component sys)) pi) as [p |]; [| discriminate Hoff0].
    destruct (nth_error (profileKeys p) row) as [pk |] eqn:Hk; [| discriminate Hoff0].
    destruct (rowButton_transfer _ _ Hoff0) as (me & Hw & Ha).
    cbn. eapply moves_opened; eauto.
  - (* ClickDelete *)
    destruct (nth_error (profiles (component sys)) pi) as [p |];
      [| apply moves_kept; reflexivity].
    destruct (handleDeleteKey_frame PublicKey_throws (wallet sys) o p row (component sys))
      as (F1 & F2).
    destruct (handleDeleteKey_modal (wallet sys) o p row (component sys)) as (F3 & _).
    destruct (handleDeleteKey PublicKey_throws (wallet sys) o p row (component sys)).
    cbn in *. apply moves_kept; auto.
  - (* ChangeDestination *)
    offer_parts Hoff. apply stepIs_eq in Hoff0.
    cbn. eapply moves_typed; eauto; reflexivity.
  - (* ClickCancel *)
    offer_parts Hoff. cbn. apply moves_closed; auto.
    intro E. unfold stepIs in Hoff0. rewrite E in Hoff0. discriminate Hoff0.
  - (* ClickContinue *)
    offer_parts Hoff. apply stepIs_eq in Hoff1. cbn.
    unfold handleDestinationSubmit.
    destruct (PublicKey_throws _).
    { eapply moves_error; [reflexivity | reflexivity | | reflexivity].
      rewrite Hoff1. discriminate. }
    destruct (publicKey (wallet sys)) as [me |];
      [| apply moves_validated; auto].
    match goal with
    | |- context [(?a =? ?b)%string] => destruct (a =? b)%string
    end; [| apply moves_validated; auto].
    eapply moves_error; [reflexivity | reflexivity | | reflexivity].
    rewrite Hoff1. discriminate.
  - (* ClickBack *)
    offer_parts Hoff. apply stepIs_eq in Hoff1. cbn. apply moves_back; auto.
  - (* ClickSignCurrent *)
    offer_parts Hoff. apply stepIs_eq in Hoff1.
    destruct (handleSignWithCurrentWallet_moves (wallet sys) o (component sys))
      as (Hs & Hm & _ & Ht).
    destruct (handleSignWithCurrentWallet PublicKey_throws (wallet sys) o (component sys))
      as [c1 t]. cbn in *.
    destruct Ht as [Ht | [[msg Ht] | (me & tx & Hin & Hsig & Ht)]].
    + apply moves_kept; auto.
    + apply (moves_error _ _ _ _ msg); auto. rewrite Hoff1. discriminate.
    + eapply moves_signed; eauto.
  - apply moves_kept; reflexivity.
  - (* ClickContinueToSign *)
    offer_parts Hoff. apply stepIs_eq in Hoff1. cbn.
    apply (moves_connected _ _ _ _ (error (transferState (component sys)))); auto.
  - (* ClickSignDestination *)
    offer_parts Hoff. apply stepIs_eq in Hoff1.
    destruct (handleSignWithDestinationWallet_state (wallet sys) o (component sys))
      as [Hs Ht].
    destruct (handleSignWithDestinationWallet_modal (wallet sys) o (component sys))
      as [Hm _].
    destruct (handleSignWithDestinationWallet (wallet sys) o (component sys)) as [c1 t].
    cbn in *. destruct Ht as [Ht | [[msg Ht] | Ht]].
    + apply moves_kept; auto.
    + apply (moves_error _ _ _ _ msg); auto. rewrite Hoff1. discriminate.
    + apply moves_completed; auto.
  - (* ClickDone *)
    offer_parts Hoff. apply stepIs_eq in Hoff0. cbn. apply moves_closed; auto.
    rewrite Hoff0. discriminate.
  - (* ClickRestart *)
    offer_parts Hoff. apply stepIs_eq in Hoff0. cbn. apply moves_restarted; auto.
Qed.

(** ** The shape of the session in every reachable state *)





(** X15. Only opening the modal on a profile and closing it change
    the session's original address, the profile data it copied and the
    selected profile: no other event does, in any state.  Apart from
    those two, the destination changes only by typing in
    [enter_destination], and the stored transaction only by a first
    signature in [sign_current] or a restart in [expired]. *)
Theorem session_identity_is_fixed (sys : System) (e : Event) :
  (forall pi row, e <> ClickTransferAuth pi row) ->
  e <> ClickCancel -> e <> ClickDone ->
  let c := component sys in
  let c' := component (fst (fire PublicKey_throws sys e)) in
  let s := transferState c in
  let s' := transferState c' in
  (originalAuthPubkey s' = originalAuthPubkey s
   /\ profileKey s' = profileKey s
   /\ profileCreatedAt s' = profileCreatedAt s
   /\ profileKeyThreshold s' = profileKeyThreshold s
   /\ selectedProfile c' = selectedProfile c
   /\ modalOpen c' = modalOpen c)
  /\ (destinationPubkey s' = destinationPubkey s
      \/ (exists v, e = ChangeDestination v /\ destinationPubkey s' = v
                    /\ step s = enter_destination))
  /\ (partiallySignedTx s' = partiallySignedTx s
      \/ step s = sign_current \/ step s = expired).
Proof.
  intros Hopen Hcancel Hdone c c' s s'. subst c c' s s'.
  pose proof (fire_moves sys e) as Hm.
  destruct Hm as [Hs Hmo Ht | msg Hs Hmo Hni Ht | Hs Hmo Htr Hnc Hne Ht | msg Hs Hmo Hc Ht
                 | pi row p pk me He Hip Hk Hw Ha Hc | He Hns Hc | v Hs Hmo He Hst Ht
                 | Hs Hmo Hst Ht | Hs Hmo Hst Ht | me tx now Hs Hmo Hst Hi Hsig Ht
                 | Hs Hmo Hst Ht | Hs Hmo Hst Ht];
    try (rewrite Ht, Hs, Hmo; cbn; repeat split; auto; fail).
  - exfalso. exact (Hopen pi row He).
  - exfalso. destruct He; contradiction.
  - rewrite Ht, Hs, Hmo. cbn. split; [repeat split |]. split; [| auto].
    right. exists v. auto.
Qed.

(** X16. Along every run from the freshly mounted component, the
    stored partially signed transaction is exactly a transaction that a
    wallet was asked to sign earlier in the run, unsigned at that time,
    with that wallet's signature added: same instructions, same
    blockhash, same fee payer, one signature.  It is never re-derived or
    altered between the two signatures. *)
Theorem stored_transaction_is_the_signed_one
  (pid : string) (w : Wallet) (es : list Event) (stored : Transaction) :
  let r := run PublicKey_throws (initialSystem pid w) es in
  partiallySignedTx (transferState (component (fst r))) = Some stored ->
  exists a tx,
    In (CallSignTransaction a tx) (snd r)
    /\ signatures tx = []
    /\ stored = addSignature a tx
    /\ instructions stored = instructions tx
    /\ recentBlockhash stored = recentBlockhash tx
    /\ feePayer stored = feePayer tx
    /\ signatures stored = [a].
Proof.
  intros r Hst. subst r.
  assert (Hgen : forall es sys T0,
             (forall st, partiallySignedTx (transferState (component sys)) = Some st ->
                         exists a tx, In (CallSignTransaction a tx) T0
                                      /\ signatures tx = [] /\ st = addSignature a tx) ->
             forall st,
               partiallySignedTx
                 (transferState (component (fst (run PublicKey_throws sys es)))) = Some st ->
               exists a tx, In (CallSignTransaction a tx)
                               (T0 ++ snd (run PublicKey_throws sys es))
                            /\ signatures tx = [] /\ st = addSignature a tx).
  { clear. induction es as [| e es IH]; intros sys T0 H0 st Hst; cbn in *.
    - rewrite app_nil_r. auto.
    - pose proof (fire_moves sys e) as Hm.
      destruct (fire PublicKey_throws sys e) as [sys1 t1] eqn:Hf. cbn in Hm.
      specialize (IH sys1 (T0 ++ t1)).
      destruct (run PublicKey_throws sys1 es) as [sys2 t2] eqn:Hrun. cbn in *.
      rewrite app_assoc. apply IH; [| exact Hst].
      intros st1 Hst1.
      assert (Hold : partiallySignedTx (transferState (component sys1))
                     = partiallySignedTx (transferState (component sys)) ->
                     exists a tx, In (CallSignTransaction a tx) (T0 ++ t1)
                                  /\ signatures tx = [] /\ st1 = addSignature a tx).
      { intro E. rewrite E in Hst1. destruct (H0 st1 Hst1) as (a & tx & Hin & Hs & He).
        exists a, tx. split; [apply in_or_app; left; exact Hin | auto]. }
      destruct Hm as [Hs Hmo Ht | msg Hs Hmo Hni Ht | Hs Hmo Htr Hnc Hne Ht
                     | msg Hs Hmo Hc Ht
                     | pi row p pk me He Hip Hk Hw Ha Hc | He Hns Hc | v Hs Hmo He Hs' Ht
                     | Hs Hmo Hs' Ht | Hs Hmo Hs' Ht | me tx now Hs Hmo Hs' Hi Hsig Ht
                     | Hs Hmo Hs' Ht | Hs Hmo Hs' Ht];
        try (apply Hold; rewrite Ht; reflexivity);
        try (rewrite Hc in Hst1; discriminate Hst1);
        try (rewrite Ht in Hst1; discriminate Hst1).
      rewrite Ht in Hst1. cbn in Hst1. injection Hst1 as <-.
      exists me, tx. split; [apply in_or_app; right; exact Hi | auto]. }
  destruct (Hgen es (initialSystem pid w) [] (fun st H => ltac:(discriminate H)) stored Hst)
    as (a & tx & Hin & Hsig & He).
  exists a, tx. subst stored. cbn. rewrite Hsig. repeat split; auto.
Qed.

(** ** The countdown *)






End MoreProperties.

(** * The further properties on sample data *)

Lemma save_survives_reload_witness :
  let st' := Rpc.handleSave Sample2.editing in
  Rpc.rpcUrl st' = "https://rpc.example/x"
  /\ Rpc.rpcUrl (Rpc.mount Sample2.defaultEndpoint (Rpc.localStorage st'))
     = "https://rpc.example/x"
  /\ Rpc.getItem "theme" (Rpc.localStorage st') = Some "dark".
Proof.
  assert (H : JS.trim (Rpc.inputValue Sample2.editing) <> "")
    by (vm_compute; discriminate).
  destruct (save_survives_reload Sample2.editing Sample2.defaultEndpoint H)
    as (H1 & _ & _ & H4 & _ & H6).
  split; [exact H1 |]. split; [exact H4 |].
  rewrite (H6 "theme"); [reflexivity | vm_compute; discriminate].
Defined.

Lemma save_blank_is_ignored_witness : Rpc.handleSave Sample2.blank = Sample2.blank.
Proof. apply save_blank_is_ignored. reflexivity. Defined.

Lemma mount_falls_back_to_default_witness :
  Rpc.rpcUrl (Rpc.mount Sample2.defaultEndpoint [(Rpc.storageKey, "")])
  = Sample2.defaultEndpoint
  /\ Rpc.rpcUrl (Rpc.mount Sample2.defaultEndpoint Sample2.stored) = "https://old.example".
Proof.
  destruct (mount_falls_back_to_default Sample2.defaultEndpoint [(Rpc.storageKey, "")])
    as (H1 & _).
  destruct (mount_falls_back_to_default Sample2.defaultEndpoint Sample2.stored)
    as (_ & H2 & _).
  split.
  - apply H1. right. reflexivity.
  - apply H2; [reflexivity | discriminate].
Defined.

Lemma fetchProfiles_failures_witness :
  let c := component (Sample.after [FetchEffect Sample.fetched]) in
  let r := fetchProfiles Base58.PublicKey_throws (Sample.walletOf Sample.A)
             Sample2.readFails c in
  loading (fst r) = false
  /\ profiles (fst r) = [Sample.profile]
  /\ debugInfo (fst r) = "Error: 429 Too Many Requests".
Proof.
  intros c r. subst r.
  destruct (fetchProfiles_failures Base58.PublicKey_throws (Sample.walletOf Sample.A)
              Sample2.readFails c Sample.A eq_refl eq_refl eq_refl)
    as (H1 & _ & _ & _ & H5).
  destruct (H5 "429 Too Many Requests" 3%nat eq_refl eq_refl eq_refl) as [Hp Hd].
  split; [exact H1 |]. split; [exact Hp | exact Hd].
Defined.

Lemma fetchProfiles_success_witness :
  let r := fetchProfiles Base58.PublicKey_throws (Sample.walletOf Sample.A)
             Sample2.fetchedTwoKeys (component Sample.start) in
  profiles (fst r) = [Sample2.twoKeys]
  /\ snd r = [ CallGetAccountInfo Sample.programId;
               CallGetProgramAccounts Sample.programId;
               CallReadAllFromRPC Sample.programId Sample.A ].
Proof.
  destruct (fetchProfiles_success Base58.PublicKey_throws (Sample.walletOf Sample.A)
              Sample2.fetchedTwoKeys (component Sample.start) Sample.A 3%nat
              [ReadError; ReadOk Sample2.twoKeys]
              eq_refl eq_refl eq_refl eq_refl eq_refl eq_refl)
    as (H1 & _ & _ & H4 & _).
  split; [exact H1 | exact H4].
Defined.

Lemma handleDeleteKey_outcomes_witness :
  let c := component (Sample.after [FetchEffect Sample.fetched]) in
  let r := handleDeleteKey Base58.PublicKey_throws (Sample.walletOf Sample.A)
             Sample2.unconfirmed Sample.profile 1 c in
  fst r = setProcessing false c
  /\ In (CallAlert "Failed to delete key. See console.") (snd r)
  /\ existsb isRead (snd r) = false.
Proof.
  intros c r. subst r.
  destruct (handleDeleteKey_outcomes Base58.PublicKey_throws (Sample.walletOf Sample.A)
              Sample2.unconfirmed Sample.profile 1 c Sample.A eq_refl eq_refl)
    as (_ & _ & _ & _ & _ & H).
  apply H. intros (ix & ixs & bh & sg & _ & _ & _ & Hc). discriminate Hc.
Defined.

Lemma adjustAuth_replaces_own_auth_slot_witness :
  exists p i k,
    publicKey (wallet Sample2.atSignCurrent) = Some Sample.A
    /\ selectedProfile (component Sample2.atSignCurrent) = Some p
    /\ Sample.programId = profile_key p /\ 1 = keyThreshold p
    /\ Sample.programId = programId (component Sample2.atSignCurrent)
    /\ Sample.D = destinationPubkey (transferState (component Sample2.atSignCurrent))
    /\ Base58.PublicKey_throws Sample.D = None
    /\ 2 = Z.of_nat i /\ 3 = 2 + 1
    /\ nth_error (profileKeys p) i = Some k
    /\ key k = Sample.A /\ auth (permissions k) = true
    /\ forall j k', (j < i)%nat -> nth_error (profileKeys p) j = Some k' ->
                    isAuthKeyOf Sample.A k' = false.
Proof.
  apply (adjustAuth_replaces_own_auth_slot Base58.PublicKey_throws
           (wallet Sample2.atSignCurrent) Sample2.signed (component Sample2.atSignCurrent)
           Sample.programId Sample.A Sample.D Sample.programId 2 3 1).
  vm_compute. left. reflexivity.
Defined.

Lemma first_signature_request_witness :
  let tx := {| instructions := [markDestination Sample.D Sample2.adjustAuthIx];
               recentBlockhash := Some "blockhash";
               feePayer := Some Sample.D;
               signatures := [] |} in
  map (fun ix => map isSigner (keys ix)) (instructions tx) = [[true; true; false]]
  /\ feePayer tx = Some (destinationPubkey (transferState (component Sample2.atSignCurrent)))
  /\ signatures tx = [].
Proof.
  intro tx.
  assert (Hin : In (CallSignTransaction Sample.A tx)
                   (snd (handleSignWithCurrentWallet Base58.PublicKey_throws
                           (wallet Sample2.atSignCurrent) Sample2.signed
                           (component Sample2.atSignCurrent))))
    by (vm_compute; right; right; left; reflexivity).
  destruct (first_signature_request Base58.PublicKey_throws _ _ _ _ _ Hin)
    as (_ & Hfee & Hsig & _).
  split; [reflexivity |]. split; [exact Hfee | exact Hsig].
Defined.

Lemma first_signature_outcomes_witness :
  let r := handleSignWithCurrentWallet Base58.PublicKey_throws
             (wallet Sample2.atSignCurrent) Sample2.refused
             (component Sample2.atSignCurrent) in
  processing (fst r) = false
  /\ step (transferState (fst r)) = sign_current
  /\ error (transferState (fst r)) = Some "Failed to sign: User rejected the request."
  /\ existsb isSubmit (snd r) = false.
Proof.
  intro r. subst r.
  destruct (first_signature_outcomes Base58.PublicKey_throws
              (wallet Sample2.atSignCurrent) Sample2.refused
              (component Sample2.atSignCurrent) Sample.A Sample2.twoKeys
              eq_refl eq_refl eq_refl)
    as (Hp & [(msg & Hs & Hsub & _) | (stored & _ & _ & _ & Hc & _)]).
  - split; [exact Hp |]. split; [reflexivity |].
    split; [reflexivity | exact Hsub].
  - discriminate Hc.
Defined.

Lemma second_signature_outcomes_witness :
  let sys := Sample.after Sample.toSignDestination in
  let r := handleSignWithDestinationWallet (wallet sys) Sample2.sendFails (component sys) in
  partiallySignedTx (transferState (fst r))
  = partiallySignedTx (transferState (component sys))
  /\ step (transferState (fst r)) = sign_destination
  /\ forall sg, ~ In (CallConfirmTransaction sg) (snd r).
Proof.
  intros sys r. subst r.
  destruct (second_signature_outcomes (wallet sys) Sample2.sendFails (component sys))
    as ((Hp & _ & _) & _ & _ & Hstep & _ & Hsend).
  split; [exact Hp |]. split.
  - destruct Hstep as [H | (_ & _ & _ & (sg & Hc & _) & _)];
      [rewrite H; reflexivity | discriminate Hc].
  - apply (Hsend "Blockhash not found"). reflexivity.
Defined.



Lemma session_identity_is_fixed_witness :
  let sys := Sample.after (Sample.toConnectDestination Sample.D) in
  let e := WalletChanged (Sample.walletOf Sample.D) Sample.fetched in
  let s := transferState (component sys) in
  let s' := transferState (component (fst (fire Base58.PublicKey_throws sys e))) in
  originalAuthPubkey s' = Sample.A
  /\ profileKey s' = profileKey s
  /\ step s' = sign_destination.
Proof.
  intros sys e s s'. subst s s'.
  destruct (session_identity_is_fixed Base58.PublicKey_throws sys e)
    as ((H1 & H2 & _) & _); try discriminate.
  split; [rewrite H1; reflexivity |]. split; [exact H2 | reflexivity].
Defined.

Lemma stored_transaction_is_the_signed_one_witness :
  exists a tx,
    In (CallSignTransaction a tx) (snd (Sample.go Sample.toSignDestination))
    /\ signatures tx = []
    /\ addSignature Sample.A
         {| instructions := [Sample.adjustAuthIx];
            recentBlockhash := Some "blockhash";
            feePayer := Some Sample.D;
            signatures := [] |} = addSignature a tx.
Proof.
  destruct (stored_transaction_is_the_signed_one Base58.PublicKey_throws
              Sample.programId (Sample.walletOf Sample.A) Sample.toSignDestination
              (addSignature Sample.A
                 {| instructions := [Sample.adjustAuthIx];
                    recentBlockhash := Some "blockhash";
                    feePayer := Some Sample.D;
                    signatures := [] |}) eq_refl)
    as (a & tx & Hin & Hsig & He & _).
  exists a, tx. split; [exact Hin |]. split; [exact Hsig | exact He].
Defined.


Lemma forward_transition_clears_error_witness :
  let sys := Sample.after Sample.wrongWallet in
  let e := WalletChanged (Sample.walletOf Sample.D) Sample.fetched in
  error (transferState (component sys)) <> None
  /\ error (transferState (component (fst (fire Base58.PublicKey_throws sys e)))) = None.
Proof.
  intros sys e. split; [vm_compute; discriminate |].
  apply (forward_transition_clears_error Base58.PublicKey_throws sys e).
  - discriminate.
  - reflexivity.
Defined.
